(** * checkSensor: CapSense sensor health check

    A shallow embedding of [checkSensor] (source/checkSensor.c) and of the
    constants of source/checkSensor.h, followed by the properties of the
    routine: the selection frame, the three classification rules, the
    persistent counters and the calls made to the baseline reset of the
    CapSense middleware. *)

From Stdlib Require Import ZArith List Bool Lia.
From stdpp Require Import base list.
Import ListNotations.

Local Open Scope Z_scope.

(** ** Machine integers *)

(** [uint32_t] arithmetic wraps modulo 2^32. *)
Definition wrap32 (z : Z) : Z := z mod 2 ^ 32.

(** Unsigned division of C truncates. *)
Definition udiv (a b : Z) : Z := Z.quot a b.

(** ** checkSensor.h *)

Definition ALL_SENSORS : Z := 0xffffffff.

Definition STUCK_SENSOR_TIMEOUT_MSEC : Z := 6000.
Definition NO_MANS_LAND_TIMEOUT_MSEC : Z := 3000.
Definition HYPER_EVENT_FTH_MULTIPLIER : Z := 2.

Definition CAPSENSE_TOTAL_SCAN_TIME_MSEC : Z := 10.

Definition STUCK_SENSOR_COUNT : Z :=
  udiv STUCK_SENSOR_TIMEOUT_MSEC CAPSENSE_TOTAL_SCAN_TIME_MSEC.
Definition NO_MANS_LAND_COUNT : Z :=
  udiv NO_MANS_LAND_TIMEOUT_MSEC CAPSENSE_TOTAL_SCAN_TIME_MSEC.

(** ** The CapSense data structure

    The structures below are declared by the CapSense middleware
    (cycfg_capsense.h), which is not part of the sources; only the fields
    that [checkSensor] reads, and the baseline pair that the reset action
    re-anchors, are kept. *)

(** Modelled from the spec: the widget configuration in Flash
    ([cy_stc_capsense_widget_config_t]), of which the routine reads the
    number of sensors of the widget. *)
Record cy_stc_capsense_widget_config_t := mkWdConfig { numSns : nat }.

(** Modelled from the spec: the widget parameters in SRAM
    ([cy_stc_capsense_widget_context_t]): finger threshold, noise threshold
    and hysteresis. *)
Record cy_stc_capsense_widget_context_t := mkWdContext {
  fingerTh : Z;
  noiseTh : Z;
  hysteresis : Z
}.

(** Modelled from the spec: the sensor data in SRAM
    ([cy_stc_capsense_sensor_context_t]): raw count, baseline, difference
    count (the signal delta) and status byte. *)
Record cy_stc_capsense_sensor_context_t := mkSnsContext {
  raw : Z;
  bsln : Z;
  diff : Z;
  status : Z
}.

(** [cy_capsense_tuner]: the two SRAM arrays the routine walks. *)
Record cy_stc_capsense_tuner_t := mkTuner {
  widgetContext : list cy_stc_capsense_widget_context_t;
  sensorContext : list cy_stc_capsense_sensor_context_t
}.

Definition null_widget : cy_stc_capsense_widget_context_t := mkWdContext 0 0 0.
Definition null_sensor : cy_stc_capsense_sensor_context_t := mkSnsContext 0 0 0 0.

(** ** State of one call

    The locals of [checkSensor] ([result], [sensorIndex] and the two SRAM
    pointers, kept as offsets into their arrays), its two [static] counter
    arrays, the CapSense data structure, and the calls made so far to
    [Cy_CapSense_InitializeSensorBaseline] as (widgetID, snsNum) pairs. The
    pointer into the widget configuration is the suffix of the
    configuration array that the outer loop still has to visit. *)
Record state := mkState {
  result : Z;
  sensorIndex : nat;
  ptrWdContext : nat;
  ptrSensors : nat;
  noMansLandCounter : list Z;
  stuckCounter : list Z;
  cy_capsense_tuner : cy_stc_capsense_tuner_t;
  baselineResets : list (nat * nat)
}.

(** [ptrWdContext->...] and [ptrSensors->...]. A read past the end of an
    array is undefined in C; well-formed states ([wf_state]) exclude it. *)
Definition wdContext (st : state) : cy_stc_capsense_widget_context_t :=
  nth (ptrWdContext st) (widgetContext (cy_capsense_tuner st)) null_widget.

Definition sensors (st : state) : cy_stc_capsense_sensor_context_t :=
  nth (ptrSensors st) (sensorContext (cy_capsense_tuner st)) null_sensor.

(** [1 << sensorIndex], as a [uint32_t]. A shift by 32 or more is undefined
    in C; configurations of at most 32 sensors ([wf_config]) exclude it. *)
Definition sensorBit (i : nat) : Z := wrap32 (Z.shiftl 1 (Z.of_nat i)).

(** [result |= 1 << sensorIndex]. *)
Definition report (st : state) : state :=
  mkState (Z.lor (result st) (sensorBit (sensorIndex st)))
    (sensorIndex st) (ptrWdContext st) (ptrSensors st)
    (noMansLandCounter st) (stuckCounter st)
    (cy_capsense_tuner st) (baselineResets st).

(** [noMansLandCounter[sensorIndex] = v] and [stuckCounter[sensorIndex] = v]. *)
Definition set_noMansLandCounter (v : Z) (st : state) : state :=
  mkState (result st) (sensorIndex st) (ptrWdContext st) (ptrSensors st)
    (<[sensorIndex st := v]> (noMansLandCounter st)) (stuckCounter st)
    (cy_capsense_tuner st) (baselineResets st).

Definition set_stuckCounter (v : Z) (st : state) : state :=
  mkState (result st) (sensorIndex st) (ptrWdContext st) (ptrSensors st)
    (noMansLandCounter st) (<[sensorIndex st := v]> (stuckCounter st))
    (cy_capsense_tuner st) (baselineResets st).

Definition get_noMansLandCounter (st : state) : Z :=
  nth (sensorIndex st) (noMansLandCounter st) 0.

Definition get_stuckCounter (st : state) : Z :=
  nth (sensorIndex st) (stuckCounter st) 0.

(** [ptrSensors++; sensorIndex++]. *)
Definition nextSensor (st : state) : state :=
  mkState (result st) (S (sensorIndex st)) (ptrWdContext st)
    (S (ptrSensors st))
    (noMansLandCounter st) (stuckCounter st)
    (cy_capsense_tuner st) (baselineResets st).

(** Lines 75-81: the pointers are set to the first element of their
    arrays, [result] and [sensorIndex] are cleared. The counters are
    [static]: they keep their values from the previous call. *)
Definition enter (st : state) : state :=
  mkState 0 0 0 0 (noMansLandCounter st) (stuckCounter st)
    (cy_capsense_tuner st) (baselineResets st).

(** [sensorMask & (1 << sensorIndex)] as a C condition. *)
Definition selected (sensorMask : Z) (i : nat) : bool :=
  negb (Z.land sensorMask (sensorBit i) =? 0).

(** The conditions of the three rules, on a widget context and a sensor
    context. The operands are at most 16 bits wide and are promoted
    before they are compared; the product with the [2u] multiplier is
    taken in [unsigned int]. *)
Definition hyperEvent (wd : cy_stc_capsense_widget_context_t)
    (sn : cy_stc_capsense_sensor_context_t) : bool :=
  diff sn >? wrap32 (HYPER_EVENT_FTH_MULTIPLIER * fingerTh wd).

Definition noMansLand (wd : cy_stc_capsense_widget_context_t)
    (sn : cy_stc_capsense_sensor_context_t) : bool :=
  (diff sn >? noiseTh wd) && (diff sn <? fingerTh wd + hysteresis wd).

Section CheckSensor.

(** The touch bit of the status byte, a macro of the middleware. *)
Variable CY_CAPSENSE_SNS_TOUCH_STATUS_MASK : Z.

(** The effect of [Cy_CapSense_InitializeSensorBaseline(widgetID, snsNum,
    &cy_capsense_context)] on the CapSense data structure. *)
Variable Cy_CapSense_InitializeSensorBaseline :
  nat -> nat -> cy_stc_capsense_tuner_t -> cy_stc_capsense_tuner_t.

Definition touched (sn : cy_stc_capsense_sensor_context_t) : bool :=
  negb (Z.land (status sn) CY_CAPSENSE_SNS_TOUCH_STATUS_MASK =? 0).

(** [if(true == resetBaseline) Cy_CapSense_InitializeSensorBaseline(...)]. *)
Definition resetSensorBaseline (resetBaseline : bool) (widgetID snsNum : nat)
    (st : state) : state :=
  if resetBaseline then
    mkState (result st) (sensorIndex st) (ptrWdContext st) (ptrSensors st)
      (noMansLandCounter st) (stuckCounter st)
      (Cy_CapSense_InitializeSensorBaseline widgetID snsNum
         (cy_capsense_tuner st))
      (baselineResets st ++ [(widgetID, snsNum)])
  else st.

(** Lines 90-96: hyper event. *)
Definition testHyperEvent (resetBaseline : bool) (widgetID snsNum : nat)
    (st : state) : state :=
  if hyperEvent (wdContext st) (sensors st) then
    report (resetSensorBaseline resetBaseline widgetID snsNum st)
  else st.

(** Lines 98-110: no man's land. *)
Definition testNoMansLand (resetBaseline : bool) (widgetID snsNum : nat)
    (st : state) : state :=
  if noMansLand (wdContext st) (sensors st) then
    let st1 := set_noMansLandCounter (wrap32 (get_noMansLandCounter st + 1)) st in
    if get_noMansLandCounter st1 >? NO_MANS_LAND_COUNT then
      set_noMansLandCounter 0
        (report (resetSensorBaseline resetBaseline widgetID snsNum st1))
    else st1
  else st.

(** Lines 112-123: stuck sensor. *)
Definition testStuckSensor (resetBaseline : bool) (widgetID snsNum : nat)
    (st : state) : state :=
  if touched (sensors st) then
    let st1 := set_stuckCounter (wrap32 (get_stuckCounter st + 1)) st in
    if get_stuckCounter st1 >? STUCK_SENSOR_COUNT then
      set_stuckCounter 0
        (report (resetSensorBaseline resetBaseline widgetID snsNum st1))
    else st1
  else st.

(** Lines 88-128: the body of the inner loop. *)
Definition sensorBody (sensorMask : Z) (resetBaseline : bool)
    (widgetID snsNum : nat) (st : state) : state :=
  nextSensor
    (if selected sensorMask (sensorIndex st) then
       testStuckSensor resetBaseline widgetID snsNum
         (testNoMansLand resetBaseline widgetID snsNum
            (testHyperEvent resetBaseline widgetID snsNum st))
     else st).

(** Line 86: [for(snsNum = 0; snsNum < ptrWdConfig->numSns; snsNum++)]. *)
Definition sensorLoop (sensorMask : Z) (resetBaseline : bool)
    (widgetID : nat) (ptrWdConfig : cy_stc_capsense_widget_config_t)
    (st : state) : state :=
  fold_left (fun s snsNum => sensorBody sensorMask resetBaseline widgetID snsNum s)
    (seq 0 (numSns ptrWdConfig)) st.

(** Lines 84-132: the widget loop. [ptrWdConfig] walks the configuration
    array, one element per widget ([ptrWdConfig++], line 131); the
    generated configuration declares that array and
    [cy_capsense_tuner.widgetContext] with the same number of elements, the
    bound of the loop. *)
Fixpoint widgetLoop (sensorMask : Z) (resetBaseline : bool) (widgetID : nat)
    (ptrWdConfig : list cy_stc_capsense_widget_config_t) (st : state) : state :=
  match ptrWdConfig with
  | [] => st
  | wd :: rest =>
      widgetLoop sensorMask resetBaseline (S widgetID) rest
        (sensorLoop sensorMask resetBaseline widgetID wd st)
  end.

(** [checkSensor(sensorMask, resetBaseline)] on the configuration
    [wdConfig]; the value returned is [result] of the final state. *)
Definition checkSensor (wdConfig : list cy_stc_capsense_widget_config_t)
    (sensorMask : Z) (resetBaseline : bool) (st : state) : state :=
  widgetLoop sensorMask resetBaseline 0 wdConfig (enter st).

End CheckSensor.

(** ** Sensor numbering

    The sensors are numbered by flattening the widgets in configuration
    order: [positions] lists the (widgetID, snsNum) pair of every sensor,
    and a sensor's index is its place in that list. *)
Fixpoint positions_from (widgetID : nat)
    (wdConfig : list cy_stc_capsense_widget_config_t) : list (nat * nat) :=
  match wdConfig with
  | [] => []
  | wd :: rest =>
      map (pair widgetID) (seq 0 (numSns wd)) ++ positions_from (S widgetID) rest
  end.

Definition positions (wdConfig : list cy_stc_capsense_widget_config_t) :
    list (nat * nat) :=
  positions_from 0 wdConfig.

Definition total_sensors (wdConfig : list cy_stc_capsense_widget_config_t) : nat :=
  length (positions wdConfig).

(** The widget a sensor belongs to. *)
Definition widgetOf (wdConfig : list cy_stc_capsense_widget_config_t)
    (i : nat) : nat :=
  fst (nth i (positions wdConfig) (0%nat, 0%nat)).

(** ** Well-formed configurations and states

    The sizes are fixed when the firmware is built: the widget counter of
    the outer loop is a [uint8_t], the sensor mask has 32 bits, the two
    counter arrays and the sensor array have one element per sensor and the
    widget array one element per widget. *)
Definition wf_config (wdConfig : list cy_stc_capsense_widget_config_t) : Prop :=
  (length wdConfig < 256)%nat /\ (total_sensors wdConfig <= 32)%nat.

Definition wf_tuner (wdConfig : list cy_stc_capsense_widget_config_t)
    (t : cy_stc_capsense_tuner_t) : Prop :=
  length (widgetContext t) = length wdConfig /\
  length (sensorContext t) = total_sensors wdConfig.

Definition wf_state (wdConfig : list cy_stc_capsense_widget_config_t)
    (st : state) : Prop :=
  wf_config wdConfig /\
  wf_tuner wdConfig (cy_capsense_tuner st) /\
  length (noMansLandCounter st) = total_sensors wdConfig /\
  length (stuckCounter st) = total_sensors wdConfig.

(** The fields of the CapSense data structure are 16-bit unsigned. *)
Definition uint16 (z : Z) : Prop := 0 <= z < 2 ^ 16.

(** ** What the routine reads

    [inputs] is the part of the CapSense data structure that [checkSensor]
    reads: the widget parameters, and the difference count and status of
    every sensor. A baseline reset that [preserves_inputs] re-anchors
    baselines without touching them. *)
Definition inputs (t : cy_stc_capsense_tuner_t) :
    list cy_stc_capsense_widget_context_t * list (Z * Z) :=
  (widgetContext t, map (fun sn => (diff sn, status sn)) (sensorContext t)).

Definition preserves_inputs
    (reset : nat -> nat -> cy_stc_capsense_tuner_t -> cy_stc_capsense_tuner_t) :
    Prop :=
  forall widgetID snsNum t, inputs (reset widgetID snsNum t) = inputs t.

(** Modelled from the spec: the touch-status indicator of a sensor, taken
    as bit 0 of its status byte (the macro
    [CY_CAPSENSE_SNS_TOUCH_STATUS_MASK] belongs to the middleware). *)
Definition TOUCH_STATUS_BIT : Z := 1.

(** Modelled from the spec: the baseline reset of the middleware
    ([Cy_CapSense_InitializeSensorBaseline]), which re-anchors the baseline
    of the addressed sensor to its current raw count and leaves the rest
    of the data structure alone. *)
Definition reanchor (sn : cy_stc_capsense_sensor_context_t) :
    cy_stc_capsense_sensor_context_t :=
  mkSnsContext (raw sn) (raw sn) (diff sn) (status sn).

Definition sensorOffset (wdConfig : list cy_stc_capsense_widget_config_t)
    (widgetID snsNum : nat) : nat :=
  (total_sensors (take widgetID wdConfig) + snsNum)%nat.

Definition initializeSensorBaseline
    (wdConfig : list cy_stc_capsense_widget_config_t)
    (widgetID snsNum : nat) (t : cy_stc_capsense_tuner_t) :
    cy_stc_capsense_tuner_t :=
  mkTuner (widgetContext t)
    (alter reanchor (sensorOffset wdConfig widgetID snsNum) (sensorContext t)).

(** Two states in which the routine reads the same values. *)
Definition same_reads (st st' : state) : Prop :=
  ptrWdContext st = ptrWdContext st' /\
  ptrSensors st = ptrSensors st' /\
  inputs (cy_capsense_tuner st) = inputs (cy_capsense_tuner st').

(** [result |= 1 << i] under a condition. *)
Definition flag (b : bool) (i : nat) (r : Z) : Z :=
  if b then Z.lor r (sensorBit i) else r.

(** The entries a rule adds to the log of baseline resets. *)
Definition logged (b : bool) (p : nat * nat) : list (nat * nat) :=
  if b then [p] else [].

(** What a rule may do to the state while the routine is at sensor
    [sensorIndex st], whatever the baseline reset does to the CapSense data:
    it keeps the place in the traversal, sets at most the bit of that sensor,
    writes at most the counters of that sensor and keeps them within their
    limits, and logs resets for (widgetID, snsNum) only, none unless
    [resetBaseline] is set. *)
Definition local_effect (resetBaseline : bool) (widgetID snsNum : nat)
    (st st' : state) : Prop :=
  sensorIndex st' = sensorIndex st /\
  (exists b, result st' = flag b (sensorIndex st) (result st)) /\
  (forall j, j <> sensorIndex st ->
     nth j (noMansLandCounter st') 0 = nth j (noMansLandCounter st) 0 /\
     nth j (stuckCounter st') 0 = nth j (stuckCounter st) 0) /\
  length (noMansLandCounter st') = length (noMansLandCounter st) /\
  length (stuckCounter st') = length (stuckCounter st) /\
  (forall j, nth j (noMansLandCounter st) 0 <= NO_MANS_LAND_COUNT ->
     nth j (noMansLandCounter st') 0 <= NO_MANS_LAND_COUNT) /\
  (forall j, nth j (stuckCounter st) 0 <= STUCK_SENSOR_COUNT ->
     nth j (stuckCounter st') 0 <= STUCK_SENSOR_COUNT) /\
  (exists n, baselineResets st'
             = baselineResets st ++ replicate n (widgetID, snsNum) /\
             (resetBaseline = false -> n = 0%nat)).

(** ** What one call does to one sensor

    The reads of sensor [i] as the routine makes them: the widget
    parameters through [ptrWdContext], which line 76 sets to the first
    element of [widgetContext], and the sensor data through [ptrSensors],
    which advances with [sensorIndex]. *)
Definition firstWidget (st : state) : cy_stc_capsense_widget_context_t :=
  nth 0 (widgetContext (cy_capsense_tuner st)) null_widget.

Definition sensorAt (st : state) (i : nat) : cy_stc_capsense_sensor_context_t :=
  nth i (sensorContext (cy_capsense_tuner st)) null_sensor.

(** A counter after [counter++] and the test against its limit. *)
Definition exceeds (limit c : Z) : bool := wrap32 (c + 1) >? limit.

Definition bump (limit c : Z) : Z :=
  if exceeds limit c then 0 else wrap32 (c + 1).

Section Outcome.

Variable CY_CAPSENSE_SNS_TOUCH_STATUS_MASK : Z.

(** The three rules as they trip for sensor [i] in a call entered in
    state [st]. *)
Definition hyperTrips (st : state) (i : nat) : bool :=
  hyperEvent (firstWidget st) (sensorAt st i).

Definition inBand (st : state) (i : nat) : bool :=
  noMansLand (firstWidget st) (sensorAt st i).

Definition noMansLandTrips (st : state) (i : nat) : bool :=
  inBand st i && exceeds NO_MANS_LAND_COUNT (nth i (noMansLandCounter st) 0).

Definition isTouched (st : state) (i : nat) : bool :=
  touched CY_CAPSENSE_SNS_TOUCH_STATUS_MASK (sensorAt st i).

Definition stuckTrips (st : state) (i : nat) : bool :=
  isTouched st i && exceeds STUCK_SENSOR_COUNT (nth i (stuckCounter st) 0).

Definition tripCount (st : state) (i : nat) : nat :=
  (Nat.b2n (hyperTrips st i) + Nat.b2n (noMansLandTrips st i)
   + Nat.b2n (stuckTrips st i))%nat.

End Outcome.

(** ** What one call does to every sensor

    The outcome of a call with mask [sensorMask] and flag [resetBaseline]
    entered in state [st], sensor by sensor: whether its bit is reported,
    the values of its two counters afterwards, the number of calls to the
    baseline reset made for it, and the calls made for the sensors at the
    positions [ps] in the order of the traversal. *)
Section Summary.

Variable CY_CAPSENSE_SNS_TOUCH_STATUS_MASK : Z.
Variable sensorMask : Z.
Variable resetBaseline : bool.

Definition flagged (st : state) (i : nat) : bool :=
  selected sensorMask i
  && (hyperTrips st i || noMansLandTrips st i
      || stuckTrips CY_CAPSENSE_SNS_TOUCH_STATUS_MASK st i).

Definition noMansLandAfter (st : state) (i : nat) : Z :=
  if selected sensorMask i && inBand st i
  then bump NO_MANS_LAND_COUNT (nth i (noMansLandCounter st) 0)
  else nth i (noMansLandCounter st) 0.

Definition stuckAfter (st : state) (i : nat) : Z :=
  if selected sensorMask i && isTouched CY_CAPSENSE_SNS_TOUCH_STATUS_MASK st i
  then bump STUCK_SENSOR_COUNT (nth i (stuckCounter st) 0)
  else nth i (stuckCounter st) 0.

Definition resetCalls (st : state) (i : nat) : nat :=
  if selected sensorMask i && resetBaseline
  then tripCount CY_CAPSENSE_SNS_TOUCH_STATUS_MASK st i
  else 0%nat.

Definition expectedResets (st : state) (ps : list (nat * nat)) :
    list (nat * nat) :=
  concat (imap (fun j p => replicate (resetCalls st j) p) ps).

(** The invariant of the two loops: [s] is the state reached from the state
    [e] at the head of the loops once the sensors at the positions [ps]
    have been visited. *)
Record invariant (e : state) (ps : list (nat * nat)) (s : state) : Prop :=
  mkInvariant {
  inv_index : sensorIndex s = length ps;
  inv_ptrWdContext : ptrWdContext s = 0%nat;
  inv_ptrSensors : ptrSensors s = length ps;
  inv_inputs : inputs (cy_capsense_tuner s) = inputs (cy_capsense_tuner e);
  inv_noMansLand_length :
    length (noMansLandCounter s) = length (noMansLandCounter e);
  inv_stuck_length : length (stuckCounter s) = length (stuckCounter e);
  inv_noMansLand : forall j,
    nth j (noMansLandCounter s) 0
    = if (j <? length ps)%nat then noMansLandAfter e j
      else nth j (noMansLandCounter e) 0;
  inv_stuck : forall j,
    nth j (stuckCounter s) 0
    = if (j <? length ps)%nat then stuckAfter e j
      else nth j (stuckCounter e) 0;
  inv_result : forall j,
    Z.testbit (result s) (Z.of_nat j) = (j <? length ps)%nat && flagged e j;
  inv_baselineResets :
    baselineResets s = baselineResets e ++ expectedResets e ps
}.

End Summary.

(** The calls of a log made, in order, on the CapSense data. *)
Definition applyResets
    (reset : nat -> nat -> cy_stc_capsense_tuner_t -> cy_stc_capsense_tuner_t)
    (calls : list (nat * nat)) (t : cy_stc_capsense_tuner_t) :
    cy_stc_capsense_tuner_t :=
  fold_left (fun t' p => reset (fst p) (snd p) t') calls t.

(** [st'] comes from [st] by calls to the baseline reset and nothing else
    that touches the CapSense data: the log grows by the calls made, and the
    data are the data of [st] with those calls made on them in order. *)
Definition replays
    (reset : nat -> nat -> cy_stc_capsense_tuner_t -> cy_stc_capsense_tuner_t)
    (st st' : state) : Prop :=
  exists calls,
    baselineResets st' = baselineResets st ++ calls /\
    cy_capsense_tuner st' = applyResets reset calls (cy_capsense_tuner st).

(** The calls to the baseline reset for sensor (widgetID, snsNum) in a log. *)
Definition resetsOf (p : nat * nat) (log : list (nat * nat)) : nat :=
  length (filter (fun q => p = q) log).

(** ** Scan cycles

    [checkSensor] is called once per scan; between two calls the
    middleware rewrites the CapSense data structure with the new scan,
    while the counters keep the values the previous call left. *)
Record scan := mkScan {
  scanMask : Z;
  scanReset : bool;
  scanData : cy_stc_capsense_tuner_t
}.

Definition load (t : cy_stc_capsense_tuner_t) (st : state) : state :=
  mkState (result st) (sensorIndex st) (ptrWdContext st) (ptrSensors st)
    (noMansLandCounter st) (stuckCounter st) t (baselineResets st).

Section Cycles.

Variable CY_CAPSENSE_SNS_TOUCH_STATUS_MASK : Z.
Variable Cy_CapSense_InitializeSensorBaseline :
  nat -> nat -> cy_stc_capsense_tuner_t -> cy_stc_capsense_tuner_t.
Variable wdConfig : list cy_stc_capsense_widget_config_t.

Definition cycle (st : state) (c : scan) : state :=
  checkSensor CY_CAPSENSE_SNS_TOUCH_STATUS_MASK
    Cy_CapSense_InitializeSensorBaseline wdConfig
    (scanMask c) (scanReset c) (load (scanData c) st).

(** The state after a series of scans. *)
Definition cycles (st : state) (cs : list scan) : state :=
  fold_left cycle cs st.

(** The masks returned by a series of scans, in order. *)
Fixpoint returned (st : state) (cs : list scan) : list Z :=
  match cs with
  | [] => []
  | c :: rest => result (cycle st c) :: returned (cycle st c) rest
  end.

End Cycles.

(** A scan that [checks] sensor [i]: its data fit the configuration and
    its mask selects the sensor. *)
Definition checks (wdConfig : list cy_stc_capsense_widget_config_t) (i : nat)
    (c : scan) : Prop :=
  wf_tuner wdConfig (scanData c) /\ Z.testbit (scanMask c) (Z.of_nat i) = true.


Definition scanInBand (i : nat) (c : scan) : bool :=
  noMansLand (nth 0 (widgetContext (scanData c)) null_widget)
    (nth i (sensorContext (scanData c)) null_sensor).


Definition inBandScans (i : nat) (cs : list scan) : nat :=
  length (filter (fun c => scanInBand i c = true) cs).

(** The state at power-up: the [static] arrays are zero-initialised. *)
Definition power_up (wdConfig : list cy_stc_capsense_widget_config_t)
    (t : cy_stc_capsense_tuner_t) : state :=
  mkState 0 0 0 0
    (replicate (total_sensors wdConfig) 0)
    (replicate (total_sensors wdConfig) 0) t [].

(** ** The routine with per-widget thresholds

    The routine as the specification words it: every sensor is compared
    with the thresholds of the widget it belongs to, that is, the pointer
    to the widget parameters advances with the widget loop. It differs from
    [checkSensor] in [nextWidget] only. *)
Definition nextWidget (st : state) : state :=
  mkState (result st) (sensorIndex st) (S (ptrWdContext st)) (ptrSensors st)
    (noMansLandCounter st) (stuckCounter st)
    (cy_capsense_tuner st) (baselineResets st).

Fixpoint widgetLoop_per_widget (touchMask : Z)
    (reset : nat -> nat -> cy_stc_capsense_tuner_t -> cy_stc_capsense_tuner_t)
    (sensorMask : Z) (resetBaseline : bool) (widgetID : nat)
    (ptrWdConfig : list cy_stc_capsense_widget_config_t) (st : state) : state :=
  match ptrWdConfig with
  | [] => st
  | wd :: rest =>
      widgetLoop_per_widget touchMask reset sensorMask resetBaseline
        (S widgetID) rest
        (nextWidget
           (sensorLoop touchMask reset sensorMask resetBaseline widgetID wd st))
  end.

Definition checkSensor_per_widget (touchMask : Z)
    (reset : nat -> nat -> cy_stc_capsense_tuner_t -> cy_stc_capsense_tuner_t)
    (wdConfig : list cy_stc_capsense_widget_config_t)
    (sensorMask : Z) (resetBaseline : bool) (st : state) : state :=
  widgetLoop_per_widget touchMask reset sensorMask resetBaseline 0 wdConfig
    (enter st).

(** The parameters of the widget sensor [i] belongs to. *)
Definition ownWidget (wdConfig : list cy_stc_capsense_widget_config_t)
    (st : state) (i : nat) : cy_stc_capsense_widget_context_t :=
  nth (widgetOf wdConfig i) (widgetContext (cy_capsense_tuner st)) null_widget.

(** A state with other values in the two counter arrays. *)
Definition with_counters (noMansLand' stuck' : list Z) (st : state) : state :=
  mkState (result st) (sensorIndex st) (ptrWdContext st) (ptrSensors st)
    noMansLand' stuck' (cy_capsense_tuner st) (baselineResets st).

(** ** The end-to-end scenario of the specification

    Two widgets of one sensor each: widget A with FT = 100, NT = 20 and
    HYST = 10, widget B with FT = 200, NT = 50 and HYST = 20. A scan gives
    each sensor its difference count and status. *)
Definition scenario_config : list cy_stc_capsense_widget_config_t :=
  [mkWdConfig 1; mkWdConfig 1].

Definition scenario_widgets : list cy_stc_capsense_widget_context_t :=
  [mkWdContext 100 20 10; mkWdContext 200 50 20].

Definition scenario_data (diffA statusA diffB statusB : Z) :
    cy_stc_capsense_tuner_t :=
  mkTuner scenario_widgets
    [mkSnsContext (1000 + diffA) 1000 diffA statusA;
     mkSnsContext (1000 + diffB) 1000 diffB statusB].

Definition scenario_scan (sensorMask : Z) (resetBaseline : bool)
    (diffA statusA diffB statusB : Z) : scan :=
  mkScan sensorMask resetBaseline (scenario_data diffA statusA diffB statusB).

(** The scenario run on the model of the middleware given above. *)
Definition scenario_check (sensorMask : Z) (resetBaseline : bool)
    (st : state) : state :=
  checkSensor TOUCH_STATUS_BIT (initializeSensorBaseline scenario_config)
    scenario_config sensorMask resetBaseline st.

Definition scenario_cycles (st : state) (cs : list scan) : state :=
  cycles TOUCH_STATUS_BIT (initializeSensorBaseline scenario_config)
    scenario_config st cs.

Definition scenario_returned (st : state) (cs : list scan) : list Z :=
  returned TOUCH_STATUS_BIT (initializeSensorBaseline scenario_config)
    scenario_config st cs.

(** The masks returned in the scenario with per-widget thresholds. *)
Fixpoint scenario_returned_per_widget (st : state) (cs : list scan) : list Z :=
  match cs with
  | [] => []
  | c :: rest =>
      let st' :=
        checkSensor_per_widget TOUCH_STATUS_BIT
          (initializeSensorBaseline scenario_config) scenario_config
          (scanMask c) (scanReset c) (load (scanData c) st) in
      result st' :: scenario_returned_per_widget st' rest
  end.

(** The scenario with its two widgets in the other order: widget B first. *)
Definition swapped_data (diffB statusB diffA statusA : Z) :
    cy_stc_capsense_tuner_t :=
  mkTuner [mkWdContext 200 50 20; mkWdContext 100 20 10]
    [mkSnsContext (1000 + diffB) 1000 diffB statusB;
     mkSnsContext (1000 + diffA) 1000 diffA statusA].

(** Two scans of the scenario that select every sensor and ask for no
    baseline reset: in [touch_scan] sensor A is reported touched, with a
    difference count of 150 that trips neither the hyper-event rule nor the
    no-man's-land rule; in [idle_scan] both sensors are idle. *)
Definition touch_scan : scan := scenario_scan ALL_SENSORS false 150 1 15 0.

(** Scans of the scenario that hold sensor B at a difference count, with
    sensor A idle: 210 and 150 both lie in the band of widget B, between
    NT = 50 and FT + HYST = 220, and below twice its finger threshold. *)
Definition hold_B (diffB : Z) : scan :=
  scenario_scan ALL_SENSORS false 15 0 diffB 0.

(** ** A configuration with overlapping bands

    One widget of one sensor whose hysteresis exceeds its finger
    threshold: a difference count of 50 is above twice the finger
    threshold and inside the no-man's-land band at once. The sensor is
    touched and both its counters stand at their limits. *)
Definition overlap_config : list cy_stc_capsense_widget_config_t :=
  [mkWdConfig 1].

Definition overlap_state : state :=
  mkState 0 0 0 0 [300] [600]
    (mkTuner [mkWdContext 10 5 100] [mkSnsContext 1050 1000 50 1]) [].

(** * Properties *)

(** ** Bits of the masks *)

Lemma sensorBit_pow2 (i : nat) :
  (i < 32)%nat -> sensorBit i = 2 ^ Z.of_nat i.
Proof.
  intros Hi. unfold sensorBit, wrap32. rewrite Z.shiftl_1_l.
  apply Z.mod_small. split; [apply Z.pow_nonneg; lia|].
  apply Z.pow_lt_mono_r; lia.
Qed.

Lemma land_pow2 (m k : Z) :
  0 <= k -> Z.land m (2 ^ k) = if Z.testbit m k then 2 ^ k else 0.
Proof.
  intros Hk. apply Z.bits_inj'. intros n Hn.
  rewrite Z.land_spec, Z.pow2_bits_eqb by lia.
  destruct (Z.eqb_spec k n) as [->|Hne].
  - destruct (Z.testbit m n); simpl.
    + rewrite Z.pow2_bits_eqb by lia. now rewrite Z.eqb_refl.
    + now rewrite Z.bits_0.
  - rewrite andb_false_r. destruct (Z.testbit m k).
    + rewrite Z.pow2_bits_eqb by lia. symmetry. now apply Z.eqb_neq.
    + now rewrite Z.bits_0.
Qed.

Lemma selected_testbit (sensorMask : Z) (i : nat) :
  (i < 32)%nat -> selected sensorMask i = Z.testbit sensorMask (Z.of_nat i).
Proof.
  intros Hi. unfold selected. rewrite sensorBit_pow2, land_pow2 by lia.
  destruct (Z.testbit sensorMask (Z.of_nat i)); [|reflexivity].
  assert (0 < 2 ^ Z.of_nat i) by (apply Z.pow_pos_nonneg; lia).
  destruct (Z.eqb_spec (2 ^ Z.of_nat i) 0); [lia|reflexivity].
Qed.

Lemma testbit_report (r : Z) (i k : nat) :
  (i < 32)%nat ->
  Z.testbit (Z.lor r (sensorBit i)) (Z.of_nat k)
  = Z.testbit r (Z.of_nat k) || (i =? k)%nat.
Proof.
  intros Hi. rewrite Z.lor_spec, sensorBit_pow2, Z.pow2_bits_eqb by lia.
  f_equal. destruct (Nat.eqb_spec i k) as [->|Hne].
  - apply Z.eqb_refl.
  - apply Z.eqb_neq. lia.
Qed.

(** ** Counters *)

Lemma nth_insert_eq (l : list Z) (i : nat) (v : Z) :
  (i < length l)%nat -> nth i (<[i:=v]> l) 0 = v.
Proof.
  intros Hi. rewrite nth_lookup, list_lookup_insert_eq by lia. reflexivity.
Qed.

Lemma nth_insert_ne (l : list Z) (i j : nat) (v : Z) :
  i <> j -> nth j (<[i:=v]> l) 0 = nth j l 0.
Proof.
  intros Hne. rewrite !nth_lookup, list_lookup_insert_ne by assumption.
  reflexivity.
Qed.

Lemma NO_MANS_LAND_COUNT_eq : NO_MANS_LAND_COUNT = 300.
Proof. reflexivity. Qed.

Lemma STUCK_SENSOR_COUNT_eq : STUCK_SENSOR_COUNT = 600.
Proof. reflexivity. Qed.

(** [udiv] rounds towards zero. *)
Lemma udiv_truncates (a b : Z) :
  0 <= a -> 0 < b -> b * udiv a b <= a < b * (udiv a b + 1).
Proof.
  intros Ha Hb. unfold udiv. rewrite Z.quot_div_nonneg by lia.
  pose proof (Z.mul_div_le a b Hb).
  pose proof (Z.mul_succ_div_gt a b Hb). lia.
Qed.

Lemma wrap32_range (z : Z) : 0 <= wrap32 z < 2 ^ 32.
Proof. unfold wrap32. apply Z.mod_pos_bound. lia. Qed.

Lemma bump_le (limit c : Z) : 0 <= limit -> 0 <= bump limit c <= limit.
Proof.
  intros Hl. unfold bump, exceeds.
  pose proof (wrap32_range (c + 1)).
  destruct (Z.gtb_spec (wrap32 (c + 1)) limit); lia.
Qed.

Lemma exceeds_small (limit c : Z) :
  0 <= c -> c < limit -> limit < 2 ^ 32 -> exceeds limit c = false.
Proof.
  intros H0 Hc Hl. unfold exceeds, wrap32.
  rewrite Z.mod_small by lia.
  destruct (Z.gtb_spec (c + 1) limit); [lia|reflexivity].
Qed.

Lemma bump_small (limit c : Z) :
  0 <= c -> c < limit -> limit < 2 ^ 32 -> bump limit c = c + 1.
Proof.
  intros H0 Hc Hl. unfold bump. rewrite exceeds_small by assumption.
  unfold wrap32. apply Z.mod_small. lia.
Qed.

Lemma exceeds_at_limit (limit : Z) :
  0 <= limit -> limit + 1 < 2 ^ 32 -> exceeds limit limit = true.
Proof.
  intros H0 Hl. unfold exceeds, wrap32.
  rewrite Z.mod_small by lia.
  destruct (Z.gtb_spec (limit + 1) limit); [reflexivity|lia].
Qed.

Lemma bump_at_limit (limit : Z) :
  0 <= limit -> limit + 1 < 2 ^ 32 -> bump limit limit = 0.
Proof. intros H0 Hl. unfold bump. now rewrite exceeds_at_limit. Qed.

(** ** Numbering *)

(** A position belongs to the widget it names, and inside it. *)
Lemma positions_from_bounds (wdConfig : list cy_stc_capsense_widget_config_t)
    (a w s : nat) :
  In (w, s) (positions_from a wdConfig) ->
  (a <= w < a + length wdConfig)%nat /\
  (s < numSns (nth (w - a) wdConfig (mkWdConfig 0)))%nat.
Proof.
  revert a. induction wdConfig as [|wd rest IH]; intros a Hin; simpl in *.
  - contradiction.
  - apply in_app_or in Hin. destruct Hin as [Hin|Hin].
    + apply in_map_iff in Hin. destruct Hin as [x [Heq Hx]].
      inversion Heq; subst. apply in_seq in Hx.
      replace (w - w)%nat with 0%nat by lia. simpl. lia.
    + apply IH in Hin. destruct Hin as [Hw Hs].
      split; [lia|].
      replace (w - a)%nat with (S (w - S a)) by lia. exact Hs.
Qed.

Lemma positions_from_NoDup (wdConfig : list cy_stc_capsense_widget_config_t)
    (a : nat) :
  List.NoDup (positions_from a wdConfig).
Proof.
  revert a. induction wdConfig as [|wd rest IH]; intros a; simpl.
  - constructor.
  - apply NoDup_ListNoDup, NoDup_app. split; [|split].
    + apply NoDup_fmap_2; [intros x y Heq; now inversion Heq|].
      apply NoDup_ListNoDup, List.seq_NoDup.
    + intros [w s] Hin1 Hin2.
      apply list_elem_of_In, in_map_iff in Hin1.
      destruct Hin1 as [x [Heq _]]. inversion Heq; subst.
      apply list_elem_of_In, positions_from_bounds in Hin2. lia.
    + apply NoDup_ListNoDup, IH.
Qed.

(** ** Reads *)

Lemma inputs_widgetContext (t t' : cy_stc_capsense_tuner_t) :
  inputs t = inputs t' -> widgetContext t = widgetContext t'.
Proof. unfold inputs. intros H. now inversion H. Qed.

Lemma inputs_diff (t t' : cy_stc_capsense_tuner_t) (i : nat) :
  inputs t = inputs t' ->
  diff (nth i (sensorContext t) null_sensor)
  = diff (nth i (sensorContext t') null_sensor).
Proof.
  unfold inputs. intros H. inversion H as [[Hw Hs]].
  pose (f := fun sn => (diff sn, status sn)).
  change (fst (f (nth i (sensorContext t) null_sensor))
          = fst (f (nth i (sensorContext t') null_sensor))).
  rewrite <- !(map_nth f). fold f in Hs. unfold fmap, list_fmap in Hs.
  now rewrite Hs.
Qed.

Lemma inputs_status (t t' : cy_stc_capsense_tuner_t) (i : nat) :
  inputs t = inputs t' ->
  status (nth i (sensorContext t) null_sensor)
  = status (nth i (sensorContext t') null_sensor).
Proof.
  unfold inputs. intros H. inversion H as [[Hw Hs]].
  pose (f := fun sn => (diff sn, status sn)).
  change (snd (f (nth i (sensorContext t) null_sensor))
          = snd (f (nth i (sensorContext t') null_sensor))).
  rewrite <- !(map_nth f). fold f in Hs. unfold fmap, list_fmap in Hs.
  now rewrite Hs.
Qed.

Lemma same_reads_hyperEvent (st st' : state) :
  same_reads st st' ->
  hyperEvent (wdContext st) (sensors st)
  = hyperEvent (wdContext st') (sensors st').
Proof.
  intros (Hw & Hs & Hi). unfold hyperEvent, wdContext, sensors.
  rewrite Hw, Hs, (inputs_widgetContext _ _ Hi), (inputs_diff _ _ _ Hi).
  reflexivity.
Qed.

Lemma same_reads_noMansLand (st st' : state) :
  same_reads st st' ->
  noMansLand (wdContext st) (sensors st)
  = noMansLand (wdContext st') (sensors st').
Proof.
  intros (Hw & Hs & Hi). unfold noMansLand, wdContext, sensors.
  rewrite Hw, Hs, (inputs_widgetContext _ _ Hi), (inputs_diff _ _ _ Hi).
  reflexivity.
Qed.

Lemma same_reads_touched (mask : Z) (st st' : state) :
  same_reads st st' ->
  touched mask (sensors st) = touched mask (sensors st').
Proof.
  intros (Hw & Hs & Hi). unfold touched, sensors.
  rewrite Hs, (inputs_status _ _ _ Hi). reflexivity.
Qed.

(** ** The three rules, one at a time *)

Lemma testbit_flag (b : bool) (i k : nat) (r : Z) :
  (i < 32)%nat ->
  Z.testbit (flag b i r) (Z.of_nat k)
  = Z.testbit r (Z.of_nat k) || (b && (i =? k)%nat).
Proof.
  intros Hi. unfold flag. destruct b; simpl.
  - now apply testbit_report.
  - now rewrite orb_false_r.
Qed.

Section Rules.

Variable CY_CAPSENSE_SNS_TOUCH_STATUS_MASK : Z.
Variable Cy_CapSense_InitializeSensorBaseline :
  nat -> nat -> cy_stc_capsense_tuner_t -> cy_stc_capsense_tuner_t.
Hypothesis reset_frame : preserves_inputs Cy_CapSense_InitializeSensorBaseline.

Local Abbreviation resetSensorBaseline' :=
  (resetSensorBaseline Cy_CapSense_InitializeSensorBaseline).
Local Abbreviation testHyperEvent' :=
  (testHyperEvent Cy_CapSense_InitializeSensorBaseline).
Local Abbreviation testNoMansLand' :=
  (testNoMansLand Cy_CapSense_InitializeSensorBaseline).
Local Abbreviation testStuckSensor' :=
  (testStuckSensor CY_CAPSENSE_SNS_TOUCH_STATUS_MASK
     Cy_CapSense_InitializeSensorBaseline).
Local Abbreviation sensorBody' :=
  (sensorBody CY_CAPSENSE_SNS_TOUCH_STATUS_MASK
     Cy_CapSense_InitializeSensorBaseline).

Lemma testHyperEvent_spec (rb : bool) (w s : nat) (st : state) :
  let st' := testHyperEvent' rb w s st in
  let h := hyperEvent (wdContext st) (sensors st) in
  result st' = flag h (sensorIndex st) (result st) /\
  sensorIndex st' = sensorIndex st /\
  same_reads st st' /\
  noMansLandCounter st' = noMansLandCounter st /\
  stuckCounter st' = stuckCounter st /\
  baselineResets st' = baselineResets st ++ logged (h && rb) (w, s).
Proof using reset_frame.
  unfold testHyperEvent, resetSensorBaseline, same_reads. simpl.
  destruct (hyperEvent (wdContext st) (sensors st)), rb; simpl;
    rewrite ?app_nil_r, ?reset_frame; repeat split; reflexivity.
Qed.

Lemma testNoMansLand_spec (rb : bool) (w s : nat) (st : state) :
  (sensorIndex st < length (noMansLandCounter st))%nat ->
  let st' := testNoMansLand' rb w s st in
  let n := noMansLand (wdContext st) (sensors st) in
  let c := nth (sensorIndex st) (noMansLandCounter st) 0 in
  let trip := n && exceeds NO_MANS_LAND_COUNT c in
  result st' = flag trip (sensorIndex st) (result st) /\
  sensorIndex st' = sensorIndex st /\
  same_reads st st' /\
  noMansLandCounter st'
  = (if n then <[sensorIndex st := bump NO_MANS_LAND_COUNT c]> (noMansLandCounter st)
     else noMansLandCounter st) /\
  stuckCounter st' = stuckCounter st /\
  baselineResets st' = baselineResets st ++ logged (trip && rb) (w, s).
Proof using reset_frame.
  intros Hlen.
  unfold testNoMansLand, resetSensorBaseline, same_reads, bump,
    get_noMansLandCounter. simpl.
  destruct (noMansLand (wdContext st) (sensors st)); simpl;
    [|rewrite app_nil_r; repeat split; reflexivity].
  rewrite nth_insert_eq by assumption.
  fold (exceeds NO_MANS_LAND_COUNT (nth (sensorIndex st) (noMansLandCounter st) 0)).
  destruct (exceeds NO_MANS_LAND_COUNT _), rb; simpl;
    rewrite ?app_nil_r, ?reset_frame, ?list_insert_insert_eq;
    repeat split; reflexivity.
Qed.

Lemma testStuckSensor_spec (rb : bool) (w s : nat) (st : state) :
  (sensorIndex st < length (stuckCounter st))%nat ->
  let st' := testStuckSensor' rb w s st in
  let t := touched CY_CAPSENSE_SNS_TOUCH_STATUS_MASK (sensors st) in
  let c := nth (sensorIndex st) (stuckCounter st) 0 in
  let trip := t && exceeds STUCK_SENSOR_COUNT c in
  result st' = flag trip (sensorIndex st) (result st) /\
  sensorIndex st' = sensorIndex st /\
  same_reads st st' /\
  noMansLandCounter st' = noMansLandCounter st /\
  stuckCounter st'
  = (if t then <[sensorIndex st := bump STUCK_SENSOR_COUNT c]> (stuckCounter st)
     else stuckCounter st) /\
  baselineResets st' = baselineResets st ++ logged (trip && rb) (w, s).
Proof using reset_frame.
  intros Hlen.
  unfold testStuckSensor, resetSensorBaseline, same_reads, bump,
    get_stuckCounter. simpl.
  destruct (touched CY_CAPSENSE_SNS_TOUCH_STATUS_MASK (sensors st)); simpl;
    [|rewrite app_nil_r; repeat split; reflexivity].
  rewrite nth_insert_eq by assumption.
  fold (exceeds STUCK_SENSOR_COUNT (nth (sensorIndex st) (stuckCounter st) 0)).
  destruct (exceeds STUCK_SENSOR_COUNT _), rb; simpl;
    rewrite ?app_nil_r, ?reset_frame, ?list_insert_insert_eq;
    repeat split; reflexivity.
Qed.

Lemma same_reads_trans (a b c : state) :
  same_reads a b -> same_reads b c -> same_reads a c.
Proof.
  unfold same_reads. intros (H1 & H2 & H3) (H4 & H5 & H6).
  repeat split; congruence.
Qed.

(** Lines 88-128 for a sensor whose counters exist. *)
Lemma sensorBody_spec (sensorMask : Z) (rb : bool) (w s : nat) (st : state) :
  (sensorIndex st < length (noMansLandCounter st))%nat ->
  (sensorIndex st < length (stuckCounter st))%nat ->
  let st' := sensorBody' sensorMask rb w s st in
  let i := sensorIndex st in
  let sel := selected sensorMask i in
  let h := hyperEvent (wdContext st) (sensors st) in
  let n := noMansLand (wdContext st) (sensors st) in
  let t := touched CY_CAPSENSE_SNS_TOUCH_STATUS_MASK (sensors st) in
  let cn := nth i (noMansLandCounter st) 0 in
  let cs := nth i (stuckCounter st) 0 in
  let nt := n && exceeds NO_MANS_LAND_COUNT cn in
  let stt := t && exceeds STUCK_SENSOR_COUNT cs in
  result st'
  = flag (sel && stt) i (flag (sel && nt) i (flag (sel && h) i (result st))) /\
  sensorIndex st' = S i /\
  ptrWdContext st' = ptrWdContext st /\
  ptrSensors st' = S (ptrSensors st) /\
  inputs (cy_capsense_tuner st') = inputs (cy_capsense_tuner st) /\
  noMansLandCounter st'
  = (if sel && n then <[i := bump NO_MANS_LAND_COUNT cn]> (noMansLandCounter st)
     else noMansLandCounter st) /\
  stuckCounter st'
  = (if sel && t then <[i := bump STUCK_SENSOR_COUNT cs]> (stuckCounter st)
     else stuckCounter st) /\
  baselineResets st'
  = baselineResets st ++ logged (sel && h && rb) (w, s)
      ++ logged (sel && nt && rb) (w, s) ++ logged (sel && stt && rb) (w, s).
Proof using reset_frame.
  intros Hn Hs. unfold sensorBody. simpl.
  destruct (selected sensorMask (sensorIndex st)); simpl;
    [|rewrite app_nil_r; repeat split; reflexivity].
  pose proof (testHyperEvent_spec rb w s st) as H1. simpl in H1.
  set (st1 := testHyperEvent' rb w s st) in *.
  destruct H1 as (Hr1 & Hi1 & Hsr1 & Hn1 & Hs1 & Hl1).
  pose proof (testNoMansLand_spec rb w s st1) as H2. simpl in H2.
  rewrite Hi1, Hn1 in H2. specialize (H2 Hn).
  set (st2 := testNoMansLand' rb w s st1) in *.
  destruct H2 as (Hr2 & Hi2 & Hsr2 & Hn2 & Hs2 & Hl2).
  pose proof (testStuckSensor_spec rb w s st2) as H3. simpl in H3.
  rewrite Hi2, Hs2, Hs1 in H3. specialize (H3 Hs).
  set (st3 := testStuckSensor' rb w s st2) in *.
  destruct H3 as (Hr3 & Hi3 & Hsr3 & Hn3 & Hs3 & Hl3).
  pose proof (same_reads_trans _ _ _ Hsr1 Hsr2) as Hsr12.
  pose proof (same_reads_trans _ _ _ Hsr12 Hsr3) as Hsr13.
  rewrite <- (same_reads_noMansLand _ _ Hsr1) in Hr2, Hn2, Hl2.
  rewrite <- (same_reads_touched _ _ _ Hsr12) in Hr3, Hs3, Hl3.
  rewrite Hr3, Hr2, Hr1, Hi3, Hn3, Hn2, Hs3, Hl3, Hl2, Hl1.
  destruct Hsr13 as (Hp1 & Hp2 & Hp3).
  rewrite <- Hp1, <- Hp2, <- Hp3, <- !app_assoc.
  repeat split; reflexivity.
Qed.

End Rules.

(** ** The two loops *)

Lemma hyperEvent_inputs (t t' : cy_stc_capsense_tuner_t) (p q : nat) :
  inputs t = inputs t' ->
  hyperEvent (nth p (widgetContext t) null_widget)
    (nth q (sensorContext t) null_sensor)
  = hyperEvent (nth p (widgetContext t') null_widget)
      (nth q (sensorContext t') null_sensor).
Proof.
  intros Hi. unfold hyperEvent.
  now rewrite (inputs_widgetContext _ _ Hi), (inputs_diff _ _ _ Hi).
Qed.

Lemma noMansLand_inputs (t t' : cy_stc_capsense_tuner_t) (p q : nat) :
  inputs t = inputs t' ->
  noMansLand (nth p (widgetContext t) null_widget)
    (nth q (sensorContext t) null_sensor)
  = noMansLand (nth p (widgetContext t') null_widget)
      (nth q (sensorContext t') null_sensor).
Proof.
  intros Hi. unfold noMansLand.
  now rewrite (inputs_widgetContext _ _ Hi), (inputs_diff _ _ _ Hi).
Qed.

Lemma touched_inputs (mask : Z) (t t' : cy_stc_capsense_tuner_t) (q : nat) :
  inputs t = inputs t' ->
  touched mask (nth q (sensorContext t) null_sensor)
  = touched mask (nth q (sensorContext t') null_sensor).
Proof. intros Hi. unfold touched. now rewrite (inputs_status _ _ _ Hi). Qed.

Lemma logged_replicate (sel rb h n t : bool) (p : nat * nat) :
  logged (sel && h && rb) p ++ logged (sel && n && rb) p
    ++ logged (sel && t && rb) p
  = replicate
      (if sel && rb then (Nat.b2n h + Nat.b2n n + Nat.b2n t)%nat else 0%nat) p.
Proof. destruct sel, rb, h, n, t; reflexivity. Qed.

Section Loops.

Variable CY_CAPSENSE_SNS_TOUCH_STATUS_MASK : Z.
Variable Cy_CapSense_InitializeSensorBaseline :
  nat -> nat -> cy_stc_capsense_tuner_t -> cy_stc_capsense_tuner_t.
Hypothesis reset_frame : preserves_inputs Cy_CapSense_InitializeSensorBaseline.
Variable sensorMask : Z.
Variable resetBaseline : bool.

Local Abbreviation body :=
  (fun s (p : nat * nat) =>
     sensorBody CY_CAPSENSE_SNS_TOUCH_STATUS_MASK
       Cy_CapSense_InitializeSensorBaseline sensorMask resetBaseline
       (fst p) (snd p) s).
Local Abbreviation invariant' :=
  (invariant CY_CAPSENSE_SNS_TOUCH_STATUS_MASK sensorMask resetBaseline).

(** The nested loops visit the positions in order. *)
Lemma sensorLoop_positions (widgetID : nat)
    (wd : cy_stc_capsense_widget_config_t) (st : state) :
  sensorLoop CY_CAPSENSE_SNS_TOUCH_STATUS_MASK
    Cy_CapSense_InitializeSensorBaseline sensorMask resetBaseline widgetID wd st
  = fold_left body (map (pair widgetID) (seq 0 (numSns wd))) st.
Proof.
  unfold sensorLoop. generalize (seq 0 (numSns wd)). intros l. revert st.
  induction l as [|x l IH]; intros st; simpl; [reflexivity|apply IH].
Qed.

Lemma widgetLoop_positions (wdConfig : list cy_stc_capsense_widget_config_t)
    (widgetID : nat) (st : state) :
  widgetLoop CY_CAPSENSE_SNS_TOUCH_STATUS_MASK
    Cy_CapSense_InitializeSensorBaseline sensorMask resetBaseline
    widgetID wdConfig st
  = fold_left body (positions_from widgetID wdConfig) st.
Proof.
  revert widgetID st.
  induction wdConfig as [|wd rest IH]; intros widgetID st; simpl.
  - reflexivity.
  - rewrite fold_left_app, IH, sensorLoop_positions. reflexivity.
Qed.

(** The invariant holds at the head of the loops... *)
Lemma invariant_enter (st : state) : invariant' (enter st) [] (enter st).
Proof.
  constructor; simpl; try reflexivity.
  - intros j. apply Z.bits_0.
  - unfold expectedResets. simpl. now rewrite app_nil_r.
Qed.

(** ... and one more sensor keeps it. *)
Lemma invariant_step (e s : state) (ps : list (nat * nat)) (p : nat * nat) :
  (length ps < length (noMansLandCounter e))%nat ->
  (length ps < length (stuckCounter e))%nat ->
  (length ps < 32)%nat ->
  invariant' e ps s ->
  invariant' e (ps ++ [p]) (body s p).
Proof using reset_frame.
  intros Hn Hs H32 [Hidx Hwd Hsn Hin Hnl Hsl Hnml Hstk Hres Hlog].
  pose proof (sensorBody_spec CY_CAPSENSE_SNS_TOUCH_STATUS_MASK
                Cy_CapSense_InitializeSensorBaseline reset_frame
                sensorMask resetBaseline (fst p) (snd p) s) as Hb.
  rewrite Hidx, Hnl, Hsl in Hb. specialize (Hb Hn Hs). cbv zeta in Hb.
  unfold wdContext, sensors in Hb. rewrite Hwd, Hsn in Hb.
  rewrite (hyperEvent_inputs _ _ _ _ Hin), (noMansLand_inputs _ _ _ _ Hin),
    (touched_inputs _ _ _ _ Hin) in Hb.
  rewrite (Hnml (length ps)), (Hstk (length ps)), Nat.ltb_irrefl in Hb.
  fold (firstWidget e) (sensorAt e (length ps)) in Hb.
  fold (hyperTrips e (length ps)) (inBand e (length ps))
    (isTouched CY_CAPSENSE_SNS_TOUCH_STATUS_MASK e (length ps)) in Hb.
  fold (noMansLandTrips e (length ps))
    (stuckTrips CY_CAPSENSE_SNS_TOUCH_STATUS_MASK e (length ps)) in Hb.
  destruct Hb as (Hr' & Hi' & Hw' & Hp' & Hin' & Hn' & Hs' & Hl').
  assert (Hlen : length (ps ++ [p]) = S (length ps))
    by (rewrite length_app; simpl; lia).
  constructor; rewrite ?Hlen.
  - exact Hi'.
  - exact Hw'.
  - exact Hp'.
  - now rewrite Hin'.
  - rewrite Hn'.
    destruct (selected sensorMask (length ps) && inBand e (length ps));
      rewrite ?length_insert; exact Hnl.
  - rewrite Hs'.
    destruct (selected sensorMask (length ps)
              && isTouched CY_CAPSENSE_SNS_TOUCH_STATUS_MASK e (length ps));
      rewrite ?length_insert; exact Hsl.
  - intros j. rewrite Hn'.
    destruct (Nat.eq_dec j (length ps)) as [->|Hne].
    + replace (length ps <? S (length ps))%nat with true
        by (symmetry; apply Nat.ltb_lt; lia).
      unfold noMansLandAfter.
      destruct (selected sensorMask (length ps) && inBand e (length ps)).
      * apply nth_insert_eq. lia.
      * rewrite Hnml, Nat.ltb_irrefl. reflexivity.
    + replace (j <? S (length ps))%nat with (j <? length ps)%nat
        by (destruct (Nat.ltb_spec j (length ps)),
              (Nat.ltb_spec j (S (length ps))); (reflexivity || lia)).
      destruct (selected sensorMask (length ps) && inBand e (length ps));
        [rewrite nth_insert_ne by congruence|]; apply Hnml.
  - intros j. rewrite Hs'.
    destruct (Nat.eq_dec j (length ps)) as [->|Hne].
    + replace (length ps <? S (length ps))%nat with true
        by (symmetry; apply Nat.ltb_lt; lia).
      unfold stuckAfter.
      destruct (selected sensorMask (length ps)
                && isTouched CY_CAPSENSE_SNS_TOUCH_STATUS_MASK e (length ps)).
      * apply nth_insert_eq. lia.
      * rewrite Hstk, Nat.ltb_irrefl. reflexivity.
    + replace (j <? S (length ps))%nat with (j <? length ps)%nat
        by (destruct (Nat.ltb_spec j (length ps)),
              (Nat.ltb_spec j (S (length ps))); (reflexivity || lia)).
      destruct (selected sensorMask (length ps)
                && isTouched CY_CAPSENSE_SNS_TOUCH_STATUS_MASK e (length ps));
        [rewrite nth_insert_ne by congruence|]; apply Hstk.
  - intros j. rewrite Hr', !testbit_flag, Hres by assumption.
    unfold flagged.
    destruct (Nat.eqb_spec (length ps) j) as [<-|Hne].
    + replace (length ps <? S (length ps))%nat with true
        by (symmetry; apply Nat.ltb_lt; lia).
      rewrite Nat.ltb_irrefl.
      destruct (selected sensorMask (length ps)), (hyperTrips e (length ps)),
        (noMansLandTrips e (length ps)),
        (stuckTrips CY_CAPSENSE_SNS_TOUCH_STATUS_MASK e (length ps));
        reflexivity.
    + replace (j <? S (length ps))%nat with (j <? length ps)%nat
        by (destruct (Nat.ltb_spec j (length ps)),
              (Nat.ltb_spec j (S (length ps))); (reflexivity || lia)).
      rewrite !andb_false_r, !orb_false_r. reflexivity.
  - rewrite Hl', Hlog, logged_replicate, <- !app_assoc. f_equal.
    unfold expectedResets. rewrite imap_app, concat_app. simpl.
    rewrite app_nil_r, Nat.add_0_r, <- surjective_pairing. reflexivity.
Qed.

Lemma invariant_fold (e : state) (ps : list (nat * nat)) :
  (length ps <= length (noMansLandCounter e))%nat ->
  (length ps <= length (stuckCounter e))%nat ->
  (length ps <= 32)%nat ->
  invariant' e [] e ->
  invariant' e ps (fold_left body ps e).
Proof using reset_frame.
  induction ps as [|p ps IH] using rev_ind; intros Hn Hs H32 H0.
  - exact H0.
  - rewrite length_app in Hn, Hs, H32. simpl in Hn, Hs, H32.
    rewrite fold_left_app. simpl.
    apply invariant_step; try lia. apply IH; (lia || assumption).
Qed.

(** The state a call returns in, described sensor by sensor. *)
Lemma checkSensor_invariant
    (wdConfig : list cy_stc_capsense_widget_config_t) (st : state) :
  wf_state wdConfig st ->
  invariant' (enter st) (positions wdConfig)
    (checkSensor CY_CAPSENSE_SNS_TOUCH_STATUS_MASK
       Cy_CapSense_InitializeSensorBaseline wdConfig sensorMask resetBaseline st).
Proof using reset_frame.
  intros ((_ & H32) & _ & Hn & Hs).
  unfold checkSensor. rewrite widgetLoop_positions.
  fold (positions wdConfig). unfold total_sensors in *.
  apply invariant_fold; simpl; try lia. apply invariant_enter.
Qed.

End Loops.

(** ** One call, sensor by sensor

    The state a call returns in, for a baseline reset that
    [preserves_inputs] and any value of the touch mask. *)

Section OneCall.

Variable CY_CAPSENSE_SNS_TOUCH_STATUS_MASK : Z.
Variable Cy_CapSense_InitializeSensorBaseline :
  nat -> nat -> cy_stc_capsense_tuner_t -> cy_stc_capsense_tuner_t.
Hypothesis reset_frame : preserves_inputs Cy_CapSense_InitializeSensorBaseline.
Variable wdConfig : list cy_stc_capsense_widget_config_t.
Variable sensorMask : Z.
Variable resetBaseline : bool.
Variable st : state.
Hypothesis wf : wf_state wdConfig st.

Local Abbreviation st' :=
  (checkSensor CY_CAPSENSE_SNS_TOUCH_STATUS_MASK
     Cy_CapSense_InitializeSensorBaseline wdConfig sensorMask resetBaseline st).

Local Abbreviation inv :=
  (checkSensor_invariant CY_CAPSENSE_SNS_TOUCH_STATUS_MASK
     Cy_CapSense_InitializeSensorBaseline reset_frame sensorMask resetBaseline
     wdConfig st wf).

Lemma checkSensor_result (j : nat) :
  Z.testbit (result st') (Z.of_nat j)
  = (j <? total_sensors wdConfig)%nat
    && flagged CY_CAPSENSE_SNS_TOUCH_STATUS_MASK sensorMask st j.
Proof using reset_frame wf. destruct inv as [_ _ _ _ _ _ _ _ H _]. apply H. Qed.

Lemma checkSensor_noMansLandCounter (j : nat) :
  nth j (noMansLandCounter st') 0
  = if (j <? total_sensors wdConfig)%nat then noMansLandAfter sensorMask st j
    else nth j (noMansLandCounter st) 0.
Proof using reset_frame wf. destruct inv as [_ _ _ _ _ _ H _ _ _]. apply H. Qed.

Lemma checkSensor_stuckCounter (j : nat) :
  nth j (stuckCounter st') 0
  = if (j <? total_sensors wdConfig)%nat
    then stuckAfter CY_CAPSENSE_SNS_TOUCH_STATUS_MASK sensorMask st j
    else nth j (stuckCounter st) 0.
Proof using reset_frame wf. destruct inv as [_ _ _ _ _ _ _ H _ _]. apply H. Qed.

Lemma checkSensor_baselineResets :
  baselineResets st'
  = baselineResets st
    ++ expectedResets CY_CAPSENSE_SNS_TOUCH_STATUS_MASK sensorMask
         resetBaseline st (positions wdConfig).
Proof using reset_frame wf. destruct inv as [_ _ _ _ _ _ _ _ _ H]. apply H. Qed.

Lemma checkSensor_inputs :
  inputs (cy_capsense_tuner st') = inputs (cy_capsense_tuner st).
Proof using reset_frame wf. destruct inv as [_ _ _ H _ _ _ _ _ _]. apply H. Qed.

Lemma checkSensor_lengths :
  length (noMansLandCounter st') = length (noMansLandCounter st) /\
  length (stuckCounter st') = length (stuckCounter st).
Proof using reset_frame wf.
  destruct inv as [_ _ _ _ Hn Hs _ _ _ _]. split; [apply Hn|apply Hs].
Qed.

End OneCall.

(** ** The log of baseline resets *)

Lemma resetsOf_app (p : nat * nat) (a b : list (nat * nat)) :
  resetsOf p (a ++ b) = (resetsOf p a + resetsOf p b)%nat.
Proof. unfold resetsOf. now rewrite filter_app, length_app. Qed.

Lemma resetsOf_replicate (p q : nat * nat) (n : nat) :
  resetsOf p (replicate n q) = if decide (p = q) then n else 0%nat.
Proof.
  unfold resetsOf. induction n as [|n IH]; simpl.
  - now destruct (decide (p = q)).
  - rewrite filter_cons. destruct (decide (p = q)); simpl; now rewrite IH.
Qed.

Lemma resetsOf_absent (g : nat -> nat) (p : nat * nat) (ps : list (nat * nat)) :
  ~ In p ps ->
  resetsOf p (concat (imap (fun j q => replicate (g j) q) ps)) = 0%nat.
Proof.
  revert g. induction ps as [|q ps IH]; intros g Hnot; simpl.
  - reflexivity.
  - rewrite resetsOf_app, resetsOf_replicate.
    destruct (decide (p = q)) as [->|_]; [exfalso; apply Hnot; now left|].
    apply (IH (fun j => g (S j))). intros Hin. apply Hnot. now right.
Qed.

Lemma resetsOf_present (g : nat -> nat) (p : nat * nat)
    (ps : list (nat * nat)) (i : nat) :
  List.NoDup ps -> ps !! i = Some p ->
  resetsOf p (concat (imap (fun j q => replicate (g j) q) ps)) = g i.
Proof.
  revert g i. induction ps as [|q ps IH]; intros g i Hnd Hi.
  - discriminate.
  - inversion Hnd as [|? ? Hnot Hnd']; subst. simpl.
    rewrite resetsOf_app, resetsOf_replicate. destruct i as [|i]; simpl in Hi.
    + inversion Hi; subst.
      destruct (decide (p = p)) as [_|Hne]; [|contradiction].
      rewrite (resetsOf_absent (fun j => g (S j))) by assumption. lia.
    + destruct (decide (p = q)) as [->|_].
      * exfalso. apply Hnot. apply list_elem_of_In, list_elem_of_lookup. eauto.
      * apply (IH (fun j => g (S j))); assumption.
Qed.

Lemma position_index (wdConfig : list cy_stc_capsense_widget_config_t)
    (i : nat) (p : nat * nat) :
  positions wdConfig !! i = Some p -> (i < total_sensors wdConfig)%nat.
Proof. intros H. unfold total_sensors. eapply lookup_lt_Some, H. Qed.

(** The baseline reset modelled above is one that [preserves_inputs]. *)
Lemma initializeSensorBaseline_frame
    (wdConfig : list cy_stc_capsense_widget_config_t) :
  preserves_inputs (initializeSensorBaseline wdConfig).
Proof.
  intros w s t. unfold initializeSensorBaseline, inputs. simpl. f_equal.
  generalize (sensorOffset wdConfig w s). intros k. revert k.
  induction (sensorContext t) as [|x l IH]; intros k.
  - reflexivity.
  - destruct k as [|k]; simpl.
    + reflexivity.
    + f_equal. apply IH.
Qed.

Lemma wf_state_scenario (t : cy_stc_capsense_tuner_t) :
  wf_tuner scenario_config t -> wf_state scenario_config (power_up scenario_config t).
Proof.
  intros Ht. unfold wf_state, wf_config. simpl.
  repeat split; try apply Ht; unfold total_sensors; simpl; lia.
Qed.

(** ** What holds whatever the baseline reset does

    The counters, the mask and the log of a call outside the sensors it
    selects, and the bounds of the counters, do not depend on what the
    baseline reset does to the CapSense data. *)

Lemma testbit_sensorBit (i j : nat) :
  Z.testbit (sensorBit i) (Z.of_nat j) = (i =? j)%nat && (j <? 32)%nat.
Proof.
  unfold sensorBit, wrap32. rewrite Z.shiftl_1_l.
  destruct (Nat.ltb_spec j 32) as [Hj|Hj].
  - rewrite Z.mod_pow2_bits_low, Z.pow2_bits_eqb, andb_true_r by lia.
    destruct (Nat.eqb_spec i j) as [->|Hne].
    + apply Z.eqb_refl.
    + apply Z.eqb_neq. lia.
  - rewrite Z.mod_pow2_bits_high by lia. now rewrite andb_false_r.
Qed.

Lemma testbit_flag_other (b : bool) (i j : nat) (r : Z) :
  i <> j -> Z.testbit (flag b i r) (Z.of_nat j) = Z.testbit r (Z.of_nat j).
Proof.
  intros Hne. unfold flag. destruct b; [|reflexivity].
  rewrite Z.lor_spec, testbit_sensorBit.
  destruct (Nat.eqb_spec i j); [contradiction|]. apply orb_false_r.
Qed.

Lemma flag_flag (a b : bool) (i : nat) (r : Z) :
  flag b i (flag a i r) = flag (a || b) i r.
Proof.
  unfold flag. destruct a, b; simpl; try reflexivity.
  now rewrite <- Z.lor_assoc, Z.lor_diag.
Qed.

Lemma selected_clear (sensorMask : Z) (i : nat) :
  Z.testbit sensorMask (Z.of_nat i) = false -> selected sensorMask i = false.
Proof.
  intros Hbit. unfold selected.
  replace (Z.land sensorMask (sensorBit i)) with 0; [reflexivity|].
  symmetry. apply Z.bits_inj'. intros n Hn.
  rewrite Z.land_spec, Z.bits_0, <- (Z2Nat.id n Hn), testbit_sensorBit.
  destruct (Nat.eqb_spec i (Z.to_nat n)) as [<-|Hne].
  - rewrite Hbit. reflexivity.
  - apply andb_false_r.
Qed.

Lemma insert_bound (l : list Z) (i j : nat) (v limit : Z) :
  ((i < length l)%nat -> v <= limit) ->
  nth j l 0 <= limit -> nth j (<[i:=v]> l) 0 <= limit.
Proof.
  intros Hv Hj. destruct (Nat.lt_ge_cases i (length l)) as [Hi|Hi].
  - destruct (Nat.eq_dec i j) as [<-|Hne].
    + rewrite nth_insert_eq by assumption. now apply Hv.
    + now rewrite nth_insert_ne.
  - now rewrite list_insert_ge.
Qed.

Lemma local_effect_refl (rb : bool) (w s : nat) (st : state) :
  local_effect rb w s st st.
Proof.
  unfold local_effect. repeat split; try (intros; assumption).
  - now exists false.
  - exists 0%nat. simpl. now rewrite app_nil_r.
Qed.

Lemma local_effect_trans (rb : bool) (w s : nat) (a b c : state) :
  local_effect rb w s a b -> local_effect rb w s b c -> local_effect rb w s a c.
Proof.
  intros (Hi1 & [b1 Hr1] & Ho1 & Hln1 & Hls1 & Hn1 & Hs1 & [n1 [Hl1 Hz1]])
         (Hi2 & [b2 Hr2] & Ho2 & Hln2 & Hls2 & Hn2 & Hs2 & [n2 [Hl2 Hz2]]).
  rewrite Hi1 in *. unfold local_effect. repeat split; try congruence.
  - exists (b1 || b2). now rewrite Hr2, Hr1, flag_flag.
  - destruct (Ho1 j H), (Ho2 j H). congruence.
  - destruct (Ho1 j H), (Ho2 j H). congruence.
  - intros j Hj. apply Hn2, Hn1, Hj.
  - intros j Hj. apply Hs2, Hs1, Hj.
  - exists (n1 + n2)%nat. split.
    + now rewrite Hl2, Hl1, replicate_add, app_assoc.
    + intros Hrb. rewrite (Hz1 Hrb), (Hz2 Hrb). reflexivity.
Qed.

Section AnyReset.

Variable CY_CAPSENSE_SNS_TOUCH_STATUS_MASK : Z.
Variable Cy_CapSense_InitializeSensorBaseline :
  nat -> nat -> cy_stc_capsense_tuner_t -> cy_stc_capsense_tuner_t.
Variable sensorMask : Z.
Variable resetBaseline : bool.

Local Abbreviation body :=
  (fun s (p : nat * nat) =>
     sensorBody CY_CAPSENSE_SNS_TOUCH_STATUS_MASK
       Cy_CapSense_InitializeSensorBaseline sensorMask resetBaseline
       (fst p) (snd p) s).

(** A rule that trips: the reset if asked for, then the bit. *)
Lemma report_local (w s : nat) (st : state) :
  local_effect resetBaseline w s st
    (report (resetSensorBaseline Cy_CapSense_InitializeSensorBaseline
               resetBaseline w s st)).
Proof.
  unfold local_effect, resetSensorBaseline.
  destruct resetBaseline; simpl; repeat split; try (intros; assumption).
  - now exists true.
  - exists 1%nat. split; [reflexivity|discriminate].
  - now exists true.
  - exists 0%nat. simpl. now rewrite app_nil_r.
Qed.

Lemma set_noMansLandCounter_local (w s : nat) (v : Z) (st : state) :
  ((sensorIndex st < length (noMansLandCounter st))%nat ->
   v <= NO_MANS_LAND_COUNT) ->
  local_effect resetBaseline w s st (set_noMansLandCounter v st).
Proof.
  intros Hv. unfold local_effect. simpl. repeat split; try (intros; assumption).
  - now exists false.
  - now apply nth_insert_ne.
  - apply length_insert.
  - intros j Hj. now apply insert_bound.
  - exists 0%nat. simpl. now rewrite app_nil_r.
Qed.

Lemma set_stuckCounter_local (w s : nat) (v : Z) (st : state) :
  ((sensorIndex st < length (stuckCounter st))%nat ->
   v <= STUCK_SENSOR_COUNT) ->
  local_effect resetBaseline w s st (set_stuckCounter v st).
Proof.
  intros Hv. unfold local_effect. simpl. repeat split; try (intros; assumption).
  - now exists false.
  - now apply nth_insert_ne.
  - apply length_insert.
  - intros j Hj. now apply insert_bound.
  - exists 0%nat. simpl. now rewrite app_nil_r.
Qed.

Lemma testHyperEvent_local (w s : nat) (st : state) :
  local_effect resetBaseline w s st
    (testHyperEvent Cy_CapSense_InitializeSensorBaseline resetBaseline w s st).
Proof.
  unfold testHyperEvent.
  destruct (hyperEvent (wdContext st) (sensors st));
    [apply report_local|apply local_effect_refl].
Qed.

(** A counter that exceeds its limit: the reset if asked for, the bit, and
    the counter cleared. *)
Lemma trip_noMansLand_local (w s : nat) (v : Z) (st : state) :
  local_effect resetBaseline w s st
    (set_noMansLandCounter 0
       (report (resetSensorBaseline Cy_CapSense_InitializeSensorBaseline
                  resetBaseline w s (set_noMansLandCounter v st)))).
Proof.
  unfold local_effect, set_noMansLandCounter, report, resetSensorBaseline.
  destruct resetBaseline; simpl; rewrite list_insert_insert_eq;
    repeat split; try (intros; assumption);
    try (now exists true); try (now apply nth_insert_ne);
    try apply length_insert;
    try (intros j Hj; apply insert_bound;
         [intros _; rewrite NO_MANS_LAND_COUNT_eq; lia|exact Hj]).
  - exists 1%nat. split; [reflexivity|discriminate].
  - exists 0%nat. simpl. now rewrite app_nil_r.
Qed.

Lemma trip_stuck_local (w s : nat) (v : Z) (st : state) :
  local_effect resetBaseline w s st
    (set_stuckCounter 0
       (report (resetSensorBaseline Cy_CapSense_InitializeSensorBaseline
                  resetBaseline w s (set_stuckCounter v st)))).
Proof.
  unfold local_effect, set_stuckCounter, report, resetSensorBaseline.
  destruct resetBaseline; simpl; rewrite list_insert_insert_eq;
    repeat split; try (intros; assumption);
    try (now exists true); try (now apply nth_insert_ne);
    try apply length_insert;
    try (intros j Hj; apply insert_bound;
         [intros _; rewrite STUCK_SENSOR_COUNT_eq; lia|exact Hj]).
  - exists 1%nat. split; [reflexivity|discriminate].
  - exists 0%nat. simpl. now rewrite app_nil_r.
Qed.

(** An incremented counter that does not exceed its limit is written back
    as it is. A counter is compared as it is read back from the array. *)
Lemma testNoMansLand_local (w s : nat) (st : state) :
  local_effect resetBaseline w s st
    (testNoMansLand Cy_CapSense_InitializeSensorBaseline resetBaseline w s st).
Proof.
  unfold testNoMansLand.
  destruct (noMansLand (wdContext st) (sensors st));
    [|apply local_effect_refl].
  set (v := wrap32 (get_noMansLandCounter st + 1)).
  destruct (Z.gtb_spec (get_noMansLandCounter (set_noMansLandCounter v st))
              NO_MANS_LAND_COUNT) as [Hgt|Hle].
  - apply trip_noMansLand_local.
  - apply set_noMansLandCounter_local. intros Hin.
    unfold get_noMansLandCounter, set_noMansLandCounter in Hle. simpl in Hle.
    now rewrite nth_insert_eq in Hle.
Qed.

Lemma testStuckSensor_local (w s : nat) (st : state) :
  local_effect resetBaseline w s st
    (testStuckSensor CY_CAPSENSE_SNS_TOUCH_STATUS_MASK
       Cy_CapSense_InitializeSensorBaseline resetBaseline w s st).
Proof.
  unfold testStuckSensor.
  destruct (touched CY_CAPSENSE_SNS_TOUCH_STATUS_MASK (sensors st));
    [|apply local_effect_refl].
  set (v := wrap32 (get_stuckCounter st + 1)).
  destruct (Z.gtb_spec (get_stuckCounter (set_stuckCounter v st))
              STUCK_SENSOR_COUNT) as [Hgt|Hle].
  - apply trip_stuck_local.
  - apply set_stuckCounter_local. intros Hin.
    unfold get_stuckCounter, set_stuckCounter in Hle. simpl in Hle.
    now rewrite nth_insert_eq in Hle.
Qed.

(** Lines 88-128: the three rules for a selected sensor, nothing for
    another one, and the step to the next sensor. *)
Lemma sensorBody_local (w s : nat) (st : state) :
  exists st2,
    local_effect resetBaseline w s st st2 /\
    sensorBody CY_CAPSENSE_SNS_TOUCH_STATUS_MASK
      Cy_CapSense_InitializeSensorBaseline sensorMask resetBaseline w s st
    = nextSensor st2 /\
    (selected sensorMask (sensorIndex st) = false -> st2 = st).
Proof.
  unfold sensorBody. destruct (selected sensorMask (sensorIndex st)).
  - eexists. split; [|split; [reflexivity|discriminate]].
    eapply local_effect_trans; [apply testHyperEvent_local|].
    eapply local_effect_trans; [apply testNoMansLand_local|].
    apply testStuckSensor_local.
  - exists st. split; [apply local_effect_refl|split; reflexivity].
Qed.

(** A sensor that the mask does not select keeps its counters and its bit
    through the traversal. *)
Lemma fold_unselected (ps : list (nat * nat)) (st : state) (j : nat) :
  selected sensorMask j = false ->
  let st' := fold_left body ps st in
  nth j (noMansLandCounter st') 0 = nth j (noMansLandCounter st) 0 /\
  nth j (stuckCounter st') 0 = nth j (stuckCounter st) 0 /\
  Z.testbit (result st') (Z.of_nat j) = Z.testbit (result st) (Z.of_nat j).
Proof.
  intros Hsel. revert st. induction ps as [|p ps IH]; intros st; simpl.
  - repeat split.
  - destruct (sensorBody_local (fst p) (snd p) st) as (st2 & Hloc & Heq & Hskip).
    rewrite Heq. destruct (IH (nextSensor st2)) as (H1 & H2 & H3).
    rewrite H1, H2, H3. simpl.
    destruct (Nat.eq_dec j (sensorIndex st)) as [->|Hne].
    + rewrite (Hskip Hsel). repeat split.
    + destruct Hloc as (_ & [b Hr] & Ho & _). destruct (Ho j Hne) as [Hn Hs].
      rewrite Hr, testbit_flag_other by congruence. repeat split; assumption.
Qed.

(** Counters within their limits stay within them through the traversal. *)
Lemma fold_bounded (ps : list (nat * nat)) (st : state) :
  (forall j, nth j (noMansLandCounter st) 0 <= NO_MANS_LAND_COUNT) ->
  (forall j, nth j (stuckCounter st) 0 <= STUCK_SENSOR_COUNT) ->
  let st' := fold_left body ps st in
  (forall j, nth j (noMansLandCounter st') 0 <= NO_MANS_LAND_COUNT) /\
  (forall j, nth j (stuckCounter st') 0 <= STUCK_SENSOR_COUNT).
Proof.
  revert st. induction ps as [|p ps IH]; intros st Hn Hs; simpl.
  - split; assumption.
  - destruct (sensorBody_local (fst p) (snd p) st) as (st2 & Hloc & Heq & _).
    rewrite Heq. destruct Hloc as (_ & _ & _ & _ & _ & Hbn & Hbs & _).
    apply IH; simpl; intros j; [apply Hbn, Hn|apply Hbs, Hs].
Qed.

(** No baseline reset is logged for a position whose sensor the mask does
    not select. *)
Lemma fold_resets (ps : list (nat * nat)) (st : state) (p : nat * nat) :
  (forall m, ps !! m = Some p ->
     selected sensorMask (sensorIndex st + m) = false) ->
  resetsOf p (baselineResets (fold_left body ps st))
  = resetsOf p (baselineResets st).
Proof.
  revert st. induction ps as [|q ps IH]; intros st Hp; simpl.
  - reflexivity.
  - destruct (sensorBody_local (fst q) (snd q) st) as (st2 & Hloc & Heq & Hskip).
    rewrite Heq, IH.
    + simpl. destruct (selected sensorMask (sensorIndex st)) eqn:Hsel.
      * destruct Hloc as (_ & _ & _ & _ & _ & _ & _ & [n [Hl _]]).
        rewrite Hl, resetsOf_app, resetsOf_replicate, <- surjective_pairing.
        destruct (decide (p = q)) as [->|_]; [|lia].
        specialize (Hp 0%nat eq_refl). rewrite Nat.add_0_r in Hp. congruence.
      * now rewrite (Hskip eq_refl).
    + intros m Hm. simpl. destruct Hloc as (Hi & _). rewrite Hi.
      replace (S (sensorIndex st + m)) with (sensorIndex st + S m)%nat by lia.
      apply Hp. exact Hm.
Qed.

(** No baseline reset is logged at all unless the flag asks for it. *)
Lemma fold_without_reset (ps : list (nat * nat)) (st : state) :
  resetBaseline = false ->
  baselineResets (fold_left body ps st) = baselineResets st.
Proof.
  intros Hrb. revert st. induction ps as [|q ps IH]; intros st; simpl.
  - reflexivity.
  - destruct (sensorBody_local (fst q) (snd q) st) as (st2 & Hloc & Heq & _).
    rewrite Heq, IH. simpl.
    destruct Hloc as (_ & _ & _ & _ & _ & _ & _ & [n [Hl Hz]]).
    rewrite Hl, (Hz Hrb). simpl. apply app_nil_r.
Qed.

End AnyReset.

(** ** The CapSense data and the log of baseline resets

    Every change a call makes to the CapSense data is a call to the baseline
    reset with the widget and sensor numbers of the sensor under the cursor,
    and every such call is in the log: the data a call leaves are the data
    it found with the logged calls made on them, in the order of the log. *)

Lemma replays_same
    (reset : nat -> nat -> cy_stc_capsense_tuner_t -> cy_stc_capsense_tuner_t)
    (st st' : state) :
  cy_capsense_tuner st' = cy_capsense_tuner st ->
  baselineResets st' = baselineResets st ->
  replays reset st st'.
Proof.
  intros Ht Hl. exists []. split.
  - now rewrite app_nil_r.
  - exact Ht.
Qed.

Lemma replays_trans
    (reset : nat -> nat -> cy_stc_capsense_tuner_t -> cy_stc_capsense_tuner_t)
    (a b c : state) :
  replays reset a b -> replays reset b c -> replays reset a c.
Proof.
  intros [c1 [Hl1 Ht1]] [c2 [Hl2 Ht2]]. exists (c1 ++ c2). split.
  - now rewrite Hl2, Hl1, app_assoc.
  - rewrite Ht2, Ht1. unfold applyResets. now rewrite fold_left_app.
Qed.

Section Replay.

Variable CY_CAPSENSE_SNS_TOUCH_STATUS_MASK : Z.
Variable Cy_CapSense_InitializeSensorBaseline :
  nat -> nat -> cy_stc_capsense_tuner_t -> cy_stc_capsense_tuner_t.

Local Abbreviation replays' := (replays Cy_CapSense_InitializeSensorBaseline).

(** Lines 93-94, 105-106 and 118-119: the call is made on the data, with
    the widget and the sensor number, when the flag is set. *)
Lemma resetSensorBaseline_replays (rb : bool) (w s : nat) (st : state) :
  replays' st
    (resetSensorBaseline Cy_CapSense_InitializeSensorBaseline rb w s st).
Proof.
  unfold resetSensorBaseline. destruct rb.
  - exists [(w, s)]. split; reflexivity.
  - now apply replays_same.
Qed.

Lemma trip_replays (rb : bool) (w s : nat) (st : state) :
  replays' st
    (report (resetSensorBaseline Cy_CapSense_InitializeSensorBaseline
               rb w s st)).
Proof.
  eapply replays_trans; [apply resetSensorBaseline_replays|].
  now apply replays_same.
Qed.

Lemma testHyperEvent_replays (rb : bool) (w s : nat) (st : state) :
  replays' st
    (testHyperEvent Cy_CapSense_InitializeSensorBaseline rb w s st).
Proof.
  unfold testHyperEvent. destruct (hyperEvent (wdContext st) (sensors st)).
  - apply trip_replays.
  - now apply replays_same.
Qed.

Lemma testNoMansLand_replays (rb : bool) (w s : nat) (st : state) :
  replays' st
    (testNoMansLand Cy_CapSense_InitializeSensorBaseline rb w s st).
Proof.
  unfold testNoMansLand.
  destruct (noMansLand (wdContext st) (sensors st));
    [|now apply replays_same].
  set (st1 := set_noMansLandCounter (wrap32 (get_noMansLandCounter st + 1)) st).
  assert (H1 : replays' st st1) by now apply replays_same.
  destruct (get_noMansLandCounter st1 >? NO_MANS_LAND_COUNT); [|exact H1].
  eapply replays_trans; [exact H1|].
  eapply replays_trans; [apply trip_replays|]. now apply replays_same.
Qed.

Lemma testStuckSensor_replays (rb : bool) (w s : nat) (st : state) :
  replays' st
    (testStuckSensor CY_CAPSENSE_SNS_TOUCH_STATUS_MASK
       Cy_CapSense_InitializeSensorBaseline rb w s st).
Proof.
  unfold testStuckSensor.
  destruct (touched CY_CAPSENSE_SNS_TOUCH_STATUS_MASK (sensors st));
    [|now apply replays_same].
  set (st1 := set_stuckCounter (wrap32 (get_stuckCounter st + 1)) st).
  assert (H1 : replays' st st1) by now apply replays_same.
  destruct (get_stuckCounter st1 >? STUCK_SENSOR_COUNT); [|exact H1].
  eapply replays_trans; [exact H1|].
  eapply replays_trans; [apply trip_replays|]. now apply replays_same.
Qed.

Lemma sensorBody_replays (sensorMask : Z) (rb : bool) (w s : nat)
    (st : state) :
  replays' st
    (sensorBody CY_CAPSENSE_SNS_TOUCH_STATUS_MASK
       Cy_CapSense_InitializeSensorBaseline sensorMask rb w s st).
Proof.
  unfold sensorBody. destruct (selected sensorMask (sensorIndex st)).
  - eapply replays_trans; [apply testHyperEvent_replays|].
    eapply replays_trans; [apply testNoMansLand_replays|].
    eapply replays_trans; [apply testStuckSensor_replays|].
    now apply replays_same.
  - now apply replays_same.
Qed.

Lemma checkSensor_replays
    (wdConfig : list cy_stc_capsense_widget_config_t)
    (sensorMask : Z) (rb : bool) (st : state) :
  replays' st
    (checkSensor CY_CAPSENSE_SNS_TOUCH_STATUS_MASK
       Cy_CapSense_InitializeSensorBaseline wdConfig sensorMask rb st).
Proof.
  unfold checkSensor. rewrite widgetLoop_positions.
  eapply replays_trans; [apply (replays_same _ st (enter st)); reflexivity|].
  generalize (enter st). generalize (positions_from 0 wdConfig).
  intros ps. induction ps as [|p ps IH]; intros s0; simpl.
  - now apply replays_same.
  - eapply replays_trans; [apply sensorBody_replays|apply IH].
Qed.

End Replay.

(** The calls of a call whose reset preserves the inputs, and the data it
    leaves. *)
Lemma checkSensor_calls
    (touchMask : Z)
    (reset : nat -> nat -> cy_stc_capsense_tuner_t -> cy_stc_capsense_tuner_t)
    (wdConfig : list cy_stc_capsense_widget_config_t)
    (sensorMask : Z) (resetBaseline : bool) (st : state) :
  preserves_inputs reset ->
  wf_state wdConfig st ->
  let st' := checkSensor touchMask reset wdConfig sensorMask resetBaseline st in
  let calls :=
    expectedResets touchMask sensorMask resetBaseline st (positions wdConfig) in
  baselineResets st' = baselineResets st ++ calls /\
  cy_capsense_tuner st' = applyResets reset calls (cy_capsense_tuner st).
Proof.
  intros Hframe Hwf st' calls.
  pose proof (checkSensor_baselineResets touchMask reset Hframe wdConfig
                sensorMask resetBaseline st Hwf) as Hlog.
  destruct (checkSensor_replays touchMask reset wdConfig sensorMask
              resetBaseline st) as [made [Hl Ht]].
  fold st' in Hlog, Hl, Ht. fold calls in Hlog.
  rewrite Hlog in Hl. apply app_inv_head in Hl. subst made.
  split; assumption.
Qed.

Lemma concat_replicate_none (g : nat -> nat) (ps : list (nat * nat)) :
  (forall j, g j = 0%nat) ->
  concat (imap (fun j q => replicate (g j) q) ps) = [].
Proof.
  revert g. induction ps as [|p ps IH]; intros g Hg; simpl.
  - reflexivity.
  - rewrite Hg. simpl. apply (IH (fun j => g (S j))). intros j. apply Hg.
Qed.

Lemma concat_replicate_single (g : nat -> nat) (ps : list (nat * nat))
    (i : nat) (p : nat * nat) :
  ps !! i = Some p -> (forall j, j <> i -> g j = 0%nat) ->
  concat (imap (fun j q => replicate (g j) q) ps) = replicate (g i) p.
Proof.
  revert g i. induction ps as [|q ps IH]; intros g i Hi Hg.
  - discriminate.
  - destruct i as [|i]; simpl in *.
    + inversion Hi; subst.
      rewrite (concat_replicate_none (fun j => g (S j)))
        by (intros j; apply Hg; lia).
      apply app_nil_r.
    + rewrite (Hg 0%nat) by lia. simpl.
      apply (IH (fun j => g (S j)) i Hi). intros j Hj. apply Hg. lia.
Qed.

(** A mask that selects one sensor alone: the calls of the call are those
    for that sensor. *)
Lemma expectedResets_single (touchMask : Z) (st : state)
    (ps : list (nat * nat)) (i : nat) (p : nat * nat) :
  (i < 32)%nat -> ps !! i = Some p ->
  expectedResets touchMask (sensorBit i) true st ps
  = replicate (tripCount touchMask st i) p.
Proof.
  intros H32 Hi. unfold expectedResets.
  rewrite (concat_replicate_single _ ps i p Hi).
  - unfold resetCalls.
    rewrite selected_testbit, testbit_sensorBit, Nat.eqb_refl by assumption.
    replace (i <? 32)%nat with true by (symmetry; apply Nat.ltb_lt; exact H32).
    reflexivity.
  - intros j Hj. unfold resetCalls.
    rewrite selected_clear; [reflexivity|].
    rewrite testbit_sensorBit.
    destruct (Nat.eqb_spec i j); [congruence|reflexivity].
Qed.

(** * The claims *)

(** C8: the two count thresholds are build-time constants, the truncating
    integer division of the timeout by the scan period:
    NO_MANS_LAND_COUNT = 3000 / 10 = 300 and
    STUCK_SENSOR_COUNT = 6000 / 10 = 600. *)
Theorem C8_count_thresholds :
  NO_MANS_LAND_COUNT
  = udiv NO_MANS_LAND_TIMEOUT_MSEC CAPSENSE_TOTAL_SCAN_TIME_MSEC /\
  NO_MANS_LAND_COUNT = Z.quot 3000 10 /\
  NO_MANS_LAND_COUNT = 300 /\
  STUCK_SENSOR_COUNT
  = udiv STUCK_SENSOR_TIMEOUT_MSEC CAPSENSE_TOTAL_SCAN_TIME_MSEC /\
  STUCK_SENSOR_COUNT = Z.quot 6000 10 /\
  STUCK_SENSOR_COUNT = 600 /\
  CAPSENSE_TOTAL_SCAN_TIME_MSEC * NO_MANS_LAND_COUNT
  <= NO_MANS_LAND_TIMEOUT_MSEC
  < CAPSENSE_TOTAL_SCAN_TIME_MSEC * (NO_MANS_LAND_COUNT + 1) /\
  CAPSENSE_TOTAL_SCAN_TIME_MSEC * STUCK_SENSOR_COUNT
  <= STUCK_SENSOR_TIMEOUT_MSEC
  < CAPSENSE_TOTAL_SCAN_TIME_MSEC * (STUCK_SENSOR_COUNT + 1).
Proof.
  repeat split; try reflexivity;
    try (apply udiv_truncates; reflexivity).
Qed.

(** C3: a sensor whose bit is not set in the sensor mask has its result
    bit clear, keeps both its counters, and gets no baseline reset, whatever
    its signal and touch status are and whatever the baseline reset does for
    the other sensors. *)
Theorem C3_unselected_sensor_skipped
    (touchMask : Z)
    (reset : nat -> nat -> cy_stc_capsense_tuner_t -> cy_stc_capsense_tuner_t)
    (wdConfig : list cy_stc_capsense_widget_config_t)
    (sensorMask : Z) (resetBaseline : bool) (st : state)
    (i widgetID snsNum : nat) :
  wf_state wdConfig st ->
  positions wdConfig !! i = Some (widgetID, snsNum) ->
  Z.testbit sensorMask (Z.of_nat i) = false ->
  let st' := checkSensor touchMask reset wdConfig sensorMask resetBaseline st in
  Z.testbit (result st') (Z.of_nat i) = false /\
  nth i (noMansLandCounter st') 0 = nth i (noMansLandCounter st) 0 /\
  nth i (stuckCounter st') 0 = nth i (stuckCounter st) 0 /\
  resetsOf (widgetID, snsNum) (baselineResets st')
  = resetsOf (widgetID, snsNum) (baselineResets st).
Proof.
  intros _ Hpos Hbit st'. unfold st', checkSensor.
  rewrite widgetLoop_positions. fold (positions wdConfig).
  pose proof (selected_clear _ _ Hbit) as Hsel.
  destruct (fold_unselected touchMask reset sensorMask resetBaseline
              (positions wdConfig) (enter st) i Hsel) as (Hn & Hs & Hr).
  repeat split.
  - rewrite Hr. simpl. apply Z.bits_0.
  - exact Hn.
  - exact Hs.
  - rewrite fold_resets; [reflexivity|].
    intros m Hm. simpl.
    assert (m = i); [|now subst].
    eapply NoDup_lookup; [|exact Hm|exact Hpos].
    apply NoDup_ListNoDup, positions_from_NoDup.
Qed.

(** Sensor B of the scenario, far above every threshold and touched, in a
    call that selects sensor A only. *)
Lemma C3_unselected_sensor_skipped_witness :
  let st := power_up scenario_config (scenario_data 15 0 500 1) in
  let st' := scenario_check 1 true st in
  Z.testbit (result st') 1 = false /\
  nth 1 (noMansLandCounter st') 0 = 0 /\
  nth 1 (stuckCounter st') 0 = 0 /\
  resetsOf (1%nat, 0%nat) (baselineResets st') = 0%nat.
Proof.
  apply (C3_unselected_sensor_skipped TOUCH_STATUS_BIT
           (initializeSensorBaseline scenario_config) scenario_config 1 true
           (power_up scenario_config (scenario_data 15 0 500 1)) 1 1 0).
  - apply wf_state_scenario. split; reflexivity.
  - reflexivity.
  - reflexivity.
Defined.

(** C7: with the same counters, CapSense data and sensor mask, a call with
    resetBaseline = true and a call with resetBaseline = false return the
    same mask and leave the same values in every no-man's-land and stuck
    counter; with resetBaseline = false the baseline reset is never
    called. The baseline reset is any action of the middleware that leaves
    the widget parameters and the difference count and status of the
    sensors as they are. *)
Theorem C7_reset_flag_only_resets
    (touchMask : Z)
    (reset : nat -> nat -> cy_stc_capsense_tuner_t -> cy_stc_capsense_tuner_t)
    (wdConfig : list cy_stc_capsense_widget_config_t)
    (sensorMask : Z) (st : state) :
  preserves_inputs reset ->
  wf_state wdConfig st ->
  let on := checkSensor touchMask reset wdConfig sensorMask true st in
  let off := checkSensor touchMask reset wdConfig sensorMask false st in
  result on = result off /\
  noMansLandCounter on = noMansLandCounter off /\
  stuckCounter on = stuckCounter off /\
  baselineResets off = baselineResets st.
Proof.
  intros Hframe Hwf on off. unfold on, off.
  pose proof (checkSensor_lengths touchMask reset Hframe wdConfig sensorMask
                true st Hwf) as [Hn1 Hs1].
  pose proof (checkSensor_lengths touchMask reset Hframe wdConfig sensorMask
                false st Hwf) as [Hn0 Hs0].
  repeat split.
  - apply Z.bits_inj'. intros n Hn.
    rewrite <- (Z2Nat.id n Hn), !checkSensor_result by assumption.
    reflexivity.
  - apply (nth_ext _ _ 0 0); [congruence|]. intros j _.
    now rewrite !checkSensor_noMansLandCounter by assumption.
  - apply (nth_ext _ _ 0 0); [congruence|]. intros j _.
    now rewrite !checkSensor_stuckCounter by assumption.
  - unfold checkSensor. rewrite widgetLoop_positions.
    now rewrite fold_without_reset.
Qed.

(** Both sensors of the scenario trip the hyper-event rule. *)
Lemma C7_reset_flag_only_resets_witness :
  let st := power_up scenario_config (scenario_data 250 0 210 0) in
  let on := scenario_check ALL_SENSORS true st in
  let off := scenario_check ALL_SENSORS false st in
  result on = result off /\
  noMansLandCounter on = noMansLandCounter off /\
  stuckCounter on = stuckCounter off /\
  baselineResets off = [].
Proof.
  apply (C7_reset_flag_only_resets TOUCH_STATUS_BIT
           (initializeSensorBaseline scenario_config) scenario_config
           ALL_SENSORS
           (power_up scenario_config (scenario_data 250 0 210 0))).
  - apply initializeSensorBaseline_frame.
  - apply wf_state_scenario. split; reflexivity.
Defined.

(** C9: if on entry every no-man's-land counter is at most
    NO_MANS_LAND_COUNT and every stuck counter at most STUCK_SENSOR_COUNT,
    the same bounds hold on exit, for every sensor mask, flag and CapSense
    data and whatever the baseline reset does; the counters stay below
    2^32. *)
Theorem C9_counters_bounded
    (touchMask : Z)
    (reset : nat -> nat -> cy_stc_capsense_tuner_t -> cy_stc_capsense_tuner_t)
    (wdConfig : list cy_stc_capsense_widget_config_t)
    (sensorMask : Z) (resetBaseline : bool) (st : state) :
  wf_state wdConfig st ->
  Forall (fun c => c <= NO_MANS_LAND_COUNT) (noMansLandCounter st) ->
  Forall (fun c => c <= STUCK_SENSOR_COUNT) (stuckCounter st) ->
  let st' := checkSensor touchMask reset wdConfig sensorMask resetBaseline st in
  Forall (fun c => c <= NO_MANS_LAND_COUNT < 2 ^ 32) (noMansLandCounter st') /\
  Forall (fun c => c <= STUCK_SENSOR_COUNT < 2 ^ 32) (stuckCounter st').
Proof.
  intros _ Hn Hs st'. unfold st', checkSensor.
  rewrite widgetLoop_positions. fold (positions wdConfig).
  assert (Hall : forall (l : list Z) (limit : Z), 0 <= limit ->
            Forall (fun c => c <= limit) l -> forall j, nth j l 0 <= limit).
  { intros l limit Hl Hf j. rewrite List.Forall_nth in Hf.
    destruct (Nat.lt_ge_cases j (length l)) as [Hj|Hj].
    - now apply Hf.
    - now rewrite nth_overflow. }
  destruct (fold_bounded touchMask reset sensorMask resetBaseline
              (positions wdConfig) (enter st)) as [Hn' Hs']; simpl.
  - apply Hall; [rewrite NO_MANS_LAND_COUNT_eq; lia|exact Hn].
  - apply Hall; [rewrite STUCK_SENSOR_COUNT_eq; lia|exact Hs].
  - split; apply List.Forall_nth; intros j d Hj; rewrite (nth_indep _ d 0 Hj).
    + split; [apply Hn'|reflexivity].
    + split; [apply Hs'|reflexivity].
Qed.

(** The counters at power-up, with sensor A in the band and touched. *)
Lemma C9_counters_bounded_witness :
  let st := power_up scenario_config (scenario_data 50 1 15 0) in
  let st' := scenario_check ALL_SENSORS true st in
  Forall (fun c => c <= NO_MANS_LAND_COUNT < 2 ^ 32) (noMansLandCounter st') /\
  Forall (fun c => c <= STUCK_SENSOR_COUNT < 2 ^ 32) (stuckCounter st').
Proof.
  apply (C9_counters_bounded TOUCH_STATUS_BIT
           (initializeSensorBaseline scenario_config) scenario_config
           ALL_SENSORS true
           (power_up scenario_config (scenario_data 50 1 15 0))).
  - apply wf_state_scenario. split; reflexivity.
  - repeat constructor; vm_compute; discriminate.
  - repeat constructor; vm_compute; discriminate.
Defined.

(** C10: with resetBaseline = true, a selected sensor gets one call to the
    baseline reset for each rule it trips in the call, up to three and
    without deduplication, while its bit of the returned mask is set once:
    the bit is set as soon as one rule trips, and a mask that selects this
    sensor alone returns exactly that bit. The calls are made on the CapSense
    data, with the widget and sensor numbers of the sensor: the data the
    call leaves are the data it found with the calls of the log made on
    them in order, and the sensor's (widgetID, snsNum) is among these calls
    once per rule it trips. The baseline reset is any action of the
    middleware that leaves the widget parameters and the difference count
    and status of the sensors as they are, so that the rules a sensor trips
    are those of the state the call is entered in. *)
Theorem C10_one_reset_per_tripped_rule
    (touchMask : Z)
    (reset : nat -> nat -> cy_stc_capsense_tuner_t -> cy_stc_capsense_tuner_t)
    (wdConfig : list cy_stc_capsense_widget_config_t)
    (sensorMask : Z) (st : state) (i widgetID snsNum : nat) :
  preserves_inputs reset ->
  wf_state wdConfig st ->
  positions wdConfig !! i = Some (widgetID, snsNum) ->
  Z.testbit sensorMask (Z.of_nat i) = true ->
  let st' := checkSensor touchMask reset wdConfig sensorMask true st in
  let trips := tripCount touchMask st i in
  let calls := expectedResets touchMask sensorMask true st (positions wdConfig) in
  baselineResets st' = baselineResets st ++ calls /\
  cy_capsense_tuner st' = applyResets reset calls (cy_capsense_tuner st) /\
  resetsOf (widgetID, snsNum) calls = trips /\
  (sensorMask = sensorBit i -> calls = replicate trips (widgetID, snsNum)) /\
  resetsOf (widgetID, snsNum) (baselineResets st')
  = (resetsOf (widgetID, snsNum) (baselineResets st) + trips)%nat /\
  (trips <= 3)%nat /\
  Z.testbit (result st') (Z.of_nat i) = (0 <? trips)%nat /\
  (sensorMask = sensorBit i -> (0 < trips)%nat -> result st' = sensorBit i).
Proof.
  intros Hframe Hwf Hpos Hbit st' trips calls.
  pose proof (position_index _ _ _ Hpos) as Hi.
  assert (H32 : (total_sensors wdConfig <= 32)%nat)
    by (destruct Hwf as ((_ & H32) & _); exact H32).
  assert (Hsel : selected sensorMask i = true)
    by (rewrite selected_testbit; [exact Hbit|lia]).
  assert (Hlt : (i <? total_sensors wdConfig)%nat = true)
    by (apply Nat.ltb_lt; exact Hi).
  assert (Hflag : flagged touchMask sensorMask st i = (0 <? trips)%nat).
  { unfold flagged, trips, tripCount. rewrite Hsel.
    destruct (hyperTrips st i), (noMansLandTrips st i),
      (stuckTrips touchMask st i); reflexivity. }
  destruct (checkSensor_calls touchMask reset wdConfig sensorMask true st
              Hframe Hwf) as [Hlog Hdata].
  fold st' calls in Hlog, Hdata.
  assert (Hcount : resetsOf (widgetID, snsNum) calls = trips).
  { unfold calls, expectedResets.
    rewrite (resetsOf_present _ _ _ i) by
      (assumption || apply positions_from_NoDup).
    unfold resetCalls. rewrite Hsel. reflexivity. }
  split; [exact Hlog|]. split; [exact Hdata|]. split; [exact Hcount|].
  split.
  { intros Hmask. unfold calls, trips. rewrite Hmask.
    apply expectedResets_single; [lia|exact Hpos]. }
  unfold st'. repeat split.
  - fold st'. rewrite Hlog, resetsOf_app, Hcount. reflexivity.
  - unfold trips, tripCount.
    destruct (hyperTrips st i), (noMansLandTrips st i),
      (stuckTrips touchMask st i); simpl; lia.
  - rewrite checkSensor_result by assumption. rewrite Hlt, Hflag. reflexivity.
  - intros Hmask Htrips. apply Z.bits_inj'. intros n Hn.
    rewrite <- (Z2Nat.id n Hn), checkSensor_result by assumption.
    set (j := Z.to_nat n).
    destruct (Nat.eq_dec j i) as [->|Hne].
    + rewrite Hlt, Hflag, sensorBit_pow2, Z.pow2_bits_eqb, Z.eqb_refl by lia.
      simpl. apply Nat.ltb_lt. exact Htrips.
    + rewrite (sensorBit_pow2 i), Z.pow2_bits_eqb by lia.
      replace (Z.of_nat i =? Z.of_nat j) with false
        by (symmetry; apply Z.eqb_neq; lia).
      destruct (Nat.ltb_spec j (total_sensors wdConfig)) as [Hj|Hj];
        [|reflexivity].
      unfold flagged. rewrite selected_testbit, Hmask, sensorBit_pow2 by lia.
      rewrite Z.pow2_bits_eqb by lia.
      replace (Z.of_nat i =? Z.of_nat j) with false
        by (symmetry; apply Z.eqb_neq; lia).
      reflexivity.
Qed.

(** The sensor with overlapping bands trips the three rules in one call:
    three calls for (0, 0), and the baseline of the sensor, 1000 before the
    call, is its raw count of 1050 after it. *)
Lemma C10_one_reset_per_tripped_rule_witness :
  let st' :=
    checkSensor TOUCH_STATUS_BIT (initializeSensorBaseline overlap_config)
      overlap_config 1 true overlap_state in
  baselineResets st' = [(0%nat, 0%nat); (0%nat, 0%nat); (0%nat, 0%nat)] /\
  cy_capsense_tuner st'
  = mkTuner [mkWdContext 10 5 100] [mkSnsContext 1050 1050 50 1] /\
  resetsOf (0%nat, 0%nat)
    [(0%nat, 0%nat); (0%nat, 0%nat); (0%nat, 0%nat)] = 3%nat /\
  (1 = sensorBit 0 ->
   [(0%nat, 0%nat); (0%nat, 0%nat); (0%nat, 0%nat)]
   = replicate 3 (0%nat, 0%nat)) /\
  resetsOf (0%nat, 0%nat) (baselineResets st') = 3%nat /\
  (3 <= 3)%nat /\
  Z.testbit (result st') 0 = true /\
  (1 = sensorBit 0 -> (0 < 3)%nat -> result st' = sensorBit 0).
Proof.
  apply (C10_one_reset_per_tripped_rule TOUCH_STATUS_BIT
           (initializeSensorBaseline overlap_config) overlap_config 1
           overlap_state 0 0 0).
  - apply initializeSensorBaseline_frame.
  - unfold wf_state, wf_config, wf_tuner, total_sensors. simpl.
    repeat split; lia.
  - reflexivity.
  - reflexivity.
Defined.

(** ** Scan after scan *)



Lemma inBandScans_cons (i : nat) (c : scan) (cs : list scan) :
  inBandScans i (c :: cs) = (Nat.b2n (scanInBand i c) + inBandScans i cs)%nat.
Proof.
  unfold inBandScans. rewrite filter_cons.
  destruct (scanInBand i c); simpl.
  - destruct (decide (true = true)); [reflexivity|contradiction].
  - destruct (decide (false = true)); [discriminate|reflexivity].
Qed.

Section Scans.

Variable CY_CAPSENSE_SNS_TOUCH_STATUS_MASK : Z.
Variable Cy_CapSense_InitializeSensorBaseline :
  nat -> nat -> cy_stc_capsense_tuner_t -> cy_stc_capsense_tuner_t.
Hypothesis reset_frame : preserves_inputs Cy_CapSense_InitializeSensorBaseline.
Variable wdConfig : list cy_stc_capsense_widget_config_t.

Local Abbreviation cycle' :=
  (cycle CY_CAPSENSE_SNS_TOUCH_STATUS_MASK
     Cy_CapSense_InitializeSensorBaseline wdConfig).
Local Abbreviation cycles' :=
  (cycles CY_CAPSENSE_SNS_TOUCH_STATUS_MASK
     Cy_CapSense_InitializeSensorBaseline wdConfig).

Lemma load_wf (st : state) (t : cy_stc_capsense_tuner_t) :
  wf_state wdConfig st -> wf_tuner wdConfig t -> wf_state wdConfig (load t st).
Proof. intros (Hc & _ & Hn & Hs) Ht. repeat split; simpl; (apply Hc || apply Ht || assumption). Qed.

Lemma cycle_wf (st : state) (c : scan) :
  wf_state wdConfig st -> wf_tuner wdConfig (scanData c) ->
  wf_state wdConfig (cycle' st c).
Proof using reset_frame.
  intros Hwf Ht. pose proof (load_wf st _ Hwf Ht) as Hl.
  pose proof (checkSensor_lengths CY_CAPSENSE_SNS_TOUCH_STATUS_MASK
                Cy_CapSense_InitializeSensorBaseline reset_frame wdConfig
                (scanMask c) (scanReset c) _ Hl) as [Hn Hs].
  pose proof (checkSensor_inputs CY_CAPSENSE_SNS_TOUCH_STATUS_MASK
                Cy_CapSense_InitializeSensorBaseline reset_frame wdConfig
                (scanMask c) (scanReset c) _ Hl) as Hi.
  destruct Hl as (Hc & (Hw & Hsn) & Hln & Hls).
  unfold cycle. unfold inputs in Hi. inversion Hi as [[Hi1 Hi2]].
  apply (f_equal length) in Hi2. rewrite !length_map in Hi2.
  unfold load in *.
  cbn [cy_capsense_tuner noMansLandCounter stuckCounter] in *.
  repeat split; try apply Hc; congruence.
Qed.

Lemma cycles_wf (cs : list scan) (st : state) :
  wf_state wdConfig st ->
  Forall (fun c => wf_tuner wdConfig (scanData c)) cs ->
  wf_state wdConfig (cycles' st cs).
Proof using reset_frame.
  revert st. induction cs as [|c cs IH]; intros st Hwf Hcs; simpl.
  - exact Hwf.
  - inversion Hcs; subst. apply IH; [apply cycle_wf|]; assumption.
Qed.

Lemma checks_selected (i : nat) (c : scan) :
  wf_config wdConfig -> (i < total_sensors wdConfig)%nat ->
  checks wdConfig i c -> selected (scanMask c) i = true.
Proof.
  intros (_ & H32) Hi (_ & Hbit). rewrite selected_testbit by lia. exact Hbit.
Qed.


(** The no-man's-land counter of a checked sensor after one scan. *)
Lemma cycle_noMansLandCounter (st : state) (c : scan) (i : nat) :
  wf_state wdConfig st -> (i < total_sensors wdConfig)%nat ->
  checks wdConfig i c ->
  nth i (noMansLandCounter (cycle' st c)) 0
  = if scanInBand i c
    then bump NO_MANS_LAND_COUNT (nth i (noMansLandCounter st) 0)
    else nth i (noMansLandCounter st) 0.
Proof using reset_frame.
  intros Hwf Hi Hc. unfold cycle.
  rewrite checkSensor_noMansLandCounter
    by (assumption || (apply load_wf; [assumption|apply Hc])).
  replace (i <? total_sensors wdConfig)%nat with true
    by (symmetry; apply Nat.ltb_lt; exact Hi).
  unfold noMansLandAfter.
  rewrite (checks_selected i c) by (assumption || apply Hwf).
  reflexivity.
Qed.

(** The bit of a checked sensor in the mask a scan returns. *)
Lemma cycle_result (st : state) (c : scan) (i : nat) :
  wf_state wdConfig st -> (i < total_sensors wdConfig)%nat ->
  checks wdConfig i c ->
  Z.testbit (result (cycle' st c)) (Z.of_nat i)
  = hyperTrips (load (scanData c) st) i
    || noMansLandTrips (load (scanData c) st) i
    || stuckTrips CY_CAPSENSE_SNS_TOUCH_STATUS_MASK (load (scanData c) st) i.
Proof using reset_frame.
  intros Hwf Hi Hc. unfold cycle.
  rewrite checkSensor_result
    by (assumption || (apply load_wf; [assumption|apply Hc])).
  replace (i <? total_sensors wdConfig)%nat with true
    by (symmetry; apply Nat.ltb_lt; exact Hi).
  unfold flagged. rewrite (checks_selected i c) by (assumption || apply Hwf).
  reflexivity.
Qed.


(** The same for the no-man's-land counter and the scans in the band. *)
Lemma noMansLandCounter_accumulates (cs : list scan) (st : state) (i : nat) :
  wf_state wdConfig st -> (i < total_sensors wdConfig)%nat ->
  Forall (checks wdConfig i) cs ->
  0 <= nth i (noMansLandCounter st) 0 ->
  nth i (noMansLandCounter st) 0 + Z.of_nat (inBandScans i cs)
  <= NO_MANS_LAND_COUNT ->
  nth i (noMansLandCounter (cycles' st cs)) 0
  = nth i (noMansLandCounter st) 0 + Z.of_nat (inBandScans i cs).
Proof using reset_frame.
  revert st. induction cs as [|c cs IH]; intros st Hwf Hi Hcs H0 Hle.
  - simpl. unfold inBandScans. simpl. lia.
  - inversion Hcs as [|? ? Hc Hcs']; subst.
    rewrite inBandScans_cons in Hle |- *. simpl.
    pose proof (cycle_noMansLandCounter st c i Hwf Hi Hc) as Hstep.
    rewrite NO_MANS_LAND_COUNT_eq in *.
    assert (Hnext : nth i (noMansLandCounter (cycle' st c)) 0
                    = nth i (noMansLandCounter st) 0
                      + Z.of_nat (Nat.b2n (scanInBand i c))).
    { rewrite Hstep. destruct (scanInBand i c); simpl in *.
      - apply bump_small; lia.
      - lia. }
    rewrite IH; try assumption.
    + rewrite Hnext. lia.
    + apply cycle_wf; [assumption|apply Hc].
    + rewrite Hnext. lia.
    + rewrite Hnext. lia.
Qed.

End Scans.




(** ** The widget whose thresholds are read

    [ptrWdContext] is set on line 76 and no line advances it: the three
    rules compare every sensor with the parameters of the first widget
    ([firstWidget] in [hyperTrips], [inBand] and [flagged] above). For the
    sensors of the first widget these are the parameters of their own
    widget. *)

Lemma firstWidget_own (wdConfig : list cy_stc_capsense_widget_config_t)
    (st : state) (i : nat) :
  widgetOf wdConfig i = 0%nat -> ownWidget wdConfig st i = firstWidget st.
Proof. intros H. unfold ownWidget, firstWidget. now rewrite H. Qed.

(** The hyper-event test leaves the counters alone and does not depend on
    them. *)
Lemma testHyperEvent_counters
    (reset : nat -> nat -> cy_stc_capsense_tuner_t -> cy_stc_capsense_tuner_t)
    (rb : bool) (w s : nat) (noMansLand' stuck' : list Z) (st : state) :
  testHyperEvent reset rb w s (with_counters noMansLand' stuck' st)
  = with_counters noMansLand' stuck' (testHyperEvent reset rb w s st).
Proof.
  unfold testHyperEvent, with_counters, wdContext, sensors. simpl.
  destruct (hyperEvent _ _), rb; reflexivity.
Qed.

(** A checked sensor above twice the finger threshold that the routine
    reads is flagged in that very call, whatever the counters hold. *)
Lemma hyper_event_flags_at_once
    (touchMask : Z)
    (reset : nat -> nat -> cy_stc_capsense_tuner_t -> cy_stc_capsense_tuner_t)
    (wdConfig : list cy_stc_capsense_widget_config_t)
    (sensorMask : Z) (resetBaseline : bool) (st : state) (i : nat) :
  preserves_inputs reset ->
  wf_state wdConfig st ->
  (i < total_sensors wdConfig)%nat ->
  Z.testbit sensorMask (Z.of_nat i) = true ->
  uint16 (fingerTh (firstWidget st)) ->
  diff (sensorAt st i) > HYPER_EVENT_FTH_MULTIPLIER * fingerTh (firstWidget st) ->
  Z.testbit
    (result (checkSensor touchMask reset wdConfig sensorMask resetBaseline st))
    (Z.of_nat i) = true.
Proof.
  intros Hframe Hwf Hi Hbit Hft Hd.
  rewrite checkSensor_result by assumption.
  replace (i <? total_sensors wdConfig)%nat with true
    by (symmetry; apply Nat.ltb_lt; exact Hi).
  unfold flagged. rewrite selected_testbit, Hbit
    by (destruct Hwf as ((_ & H32) & _); lia).
  assert (Hh : hyperTrips st i = true).
  { unfold hyperTrips, hyperEvent, wrap32, HYPER_EVENT_FTH_MULTIPLIER in *.
    unfold uint16 in Hft. rewrite Z.mod_small by lia.
    destruct (Z.gtb_spec (diff (sensorAt st i)) (2 * fingerTh (firstWidget st)));
      [reflexivity|lia]. }
  now rewrite Hh.
Qed.

(** For the sensors of the first widget this is the hyper-event rule of
    their own widget. *)
Lemma hyper_event_first_widget
    (touchMask : Z)
    (reset : nat -> nat -> cy_stc_capsense_tuner_t -> cy_stc_capsense_tuner_t)
    (wdConfig : list cy_stc_capsense_widget_config_t)
    (sensorMask : Z) (resetBaseline : bool) (st : state) (i : nat) :
  preserves_inputs reset ->
  wf_state wdConfig st ->
  (i < total_sensors wdConfig)%nat ->
  widgetOf wdConfig i = 0%nat ->
  Z.testbit sensorMask (Z.of_nat i) = true ->
  uint16 (fingerTh (ownWidget wdConfig st i)) ->
  diff (sensorAt st i)
  > HYPER_EVENT_FTH_MULTIPLIER * fingerTh (ownWidget wdConfig st i) ->
  Z.testbit
    (result (checkSensor touchMask reset wdConfig sensorMask resetBaseline st))
    (Z.of_nat i) = true.
Proof.
  intros Hframe Hwf Hi Hw. rewrite (firstWidget_own _ _ _ Hw).
  now apply hyper_event_flags_at_once.
Qed.

(** A checked sensor whose no-man's-land counter is zero and that stays, scan
    after scan, inside the band that the routine reads: the rule trips on
    scan NO_MANS_LAND_COUNT+1, which flags the sensor and clears the counter,
    and on no scan before. *)
Lemma no_mans_land_flags_after_count
    (touchMask : Z)
    (reset : nat -> nat -> cy_stc_capsense_tuner_t -> cy_stc_capsense_tuner_t)
    (wdConfig : list cy_stc_capsense_widget_config_t)
    (st : state) (cs : list scan) (c : scan) (i : nat) :
  preserves_inputs reset ->
  wf_state wdConfig st ->
  (i < total_sensors wdConfig)%nat ->
  Forall (checks wdConfig i) (cs ++ [c]) ->
  Forall (fun c => scanInBand i c = true) (cs ++ [c]) ->
  nth i (noMansLandCounter st) 0 = 0 ->
  Z.of_nat (length cs) = NO_MANS_LAND_COUNT ->
  (forall pre c' post, cs = pre ++ c' :: post ->
     let s := cycles touchMask reset wdConfig st pre in
     nth i (noMansLandCounter s) 0 = Z.of_nat (length pre) /\
     noMansLandTrips (load (scanData c') s) i = false) /\
  let s := cycles touchMask reset wdConfig st cs in
  noMansLandTrips (load (scanData c) s) i = true /\
  Z.testbit (result (cycle touchMask reset wdConfig s c)) (Z.of_nat i) = true /\
  nth i (noMansLandCounter (cycle touchMask reset wdConfig s c)) 0 = 0.
Proof.
  intros Hframe Hwf Hi Hchk Hband H0 Hlen.
  apply Forall_app in Hchk. destruct Hchk as [Hcs Hc].
  apply Forall_app in Hband. destruct Hband as [Hbs Hb].
  inversion Hc as [|? ? Hc' _]; subst. inversion Hb as [|? ? Hb' _]; subst.
  assert (Hcount : forall l, Forall (fun c => scanInBand i c = true) l ->
                     inBandScans i l = length l).
  { intros l Hl. induction Hl as [|x l Hx _ IH].
    - reflexivity.
    - rewrite inBandScans_cons, Hx, IH. reflexivity. }
  rewrite NO_MANS_LAND_COUNT_eq in Hlen.
  split.
  - intros pre c' post Heq s. subst cs.
    apply Forall_app in Hcs. destruct Hcs as [Hpre Hrest].
    apply Forall_app in Hbs. destruct Hbs as [Hbpre Hbrest].
    rewrite length_app in Hlen. simpl in Hlen.
    assert (Hs : nth i (noMansLandCounter s) 0 = Z.of_nat (length pre)).
    { unfold s. rewrite (noMansLandCounter_accumulates touchMask reset Hframe);
        try assumption;
        rewrite ?H0, ?(Hcount _ Hbpre), ?NO_MANS_LAND_COUNT_eq; lia. }
    split; [exact Hs|].
    unfold noMansLandTrips.
    change (noMansLandCounter (load (scanData c') s))
      with (noMansLandCounter s).
    rewrite Hs, exceeds_small, andb_false_r;
      rewrite ?NO_MANS_LAND_COUNT_eq; (reflexivity || lia).
  - intros s.
    assert (Hs : nth i (noMansLandCounter s) 0 = NO_MANS_LAND_COUNT).
    { unfold s. rewrite (noMansLandCounter_accumulates touchMask reset Hframe);
        try assumption;
        rewrite ?H0, ?(Hcount _ Hbs), ?NO_MANS_LAND_COUNT_eq; lia. }
    assert (Hwfs : wf_state wdConfig s).
    { apply cycles_wf; try assumption.
      eapply Forall_impl; [exact Hcs|intros x Hx; apply Hx]. }
    assert (Htrip : noMansLandTrips (load (scanData c) s) i = true).
    { unfold noMansLandTrips.
      change (inBand (load (scanData c) s) i) with (scanInBand i c).
      change (noMansLandCounter (load (scanData c) s))
        with (noMansLandCounter s).
      rewrite Hb', Hs. apply exceeds_at_limit; vm_compute; congruence. }
    repeat split.
    + exact Htrip.
    + rewrite cycle_result by assumption. rewrite Htrip.
      now rewrite orb_true_r.
    + rewrite cycle_noMansLandCounter by assumption.
      rewrite Hb', Hs. apply bump_at_limit; vm_compute; congruence.
Qed.

(** C1: the rules do not compare a sensor with the thresholds of its own
    widget when it belongs to another widget than the first. Sensor B of the
    scenario, at 210, is inside the band of widget B and below twice its
    finger threshold; the routine compares it with widget A, flags it as a
    hyper event in the first call and does not count it as in the band.
    With per-widget thresholds the call returns 0 and counts the scan. *)
Theorem C1_second_widget_read_with_first_thresholds :
  let st := power_up scenario_config (scenario_data 15 0 210 0) in
  let st' := scenario_check ALL_SENSORS false st in
  let per_widget :=
    checkSensor_per_widget TOUCH_STATUS_BIT
      (initializeSensorBaseline scenario_config) scenario_config
      ALL_SENSORS false st in
  widgetOf scenario_config 1 = 1%nat /\
  hyperEvent (ownWidget scenario_config st 1) (sensorAt st 1) = false /\
  noMansLand (ownWidget scenario_config st 1) (sensorAt st 1) = true /\
  hyperEvent (firstWidget st) (sensorAt st 1) = true /\
  noMansLand (firstWidget st) (sensorAt st 1) = false /\
  result st' = 2 /\
  nth 1 (noMansLandCounter st') 0 = 0 /\
  result per_widget = 0 /\
  nth 1 (noMansLandCounter per_widget) 0 = 1.
Proof. vm_compute. repeat split; reflexivity. Qed.

(** C2: the scenario does not run as stated. With sensor B held at 210 the
    routine returns 0b10 in every one of the NO_MANS_LAND_COUNT+1 calls,
    the first included, and the no-man's-land counter of sensor B never
    leaves 0; with per-widget thresholds the calls return 0 for
    NO_MANS_LAND_COUNT calls and 0b10 in the next one. *)
Theorem C2_scenario_flags_sensor_B_in_every_call :
  let st0 := power_up scenario_config (scenario_data 15 0 210 0) in
  let n := Z.to_nat NO_MANS_LAND_COUNT in
  scenario_returned st0 (replicate (S n) (hold_B 210)) = replicate (S n) 2 /\
  nth 1 (noMansLandCounter (scenario_cycles st0 (replicate n (hold_B 210)))) 0
  = 0 /\
  scenario_returned_per_widget st0 (replicate (S n) (hold_B 210))
  = replicate n 0 ++ [2].
Proof. vm_compute. repeat split; reflexivity. Qed.

(** C4: a sensor of the second widget held inside the band of its own
    widget is not flagged on call NO_MANS_LAND_COUNT+1. With sensor B of the
    scenario held at 150 the NO_MANS_LAND_COUNT+1 calls all return 0 and its
    no-man's-land counter stays at 0, since 150 is outside the band of
    widget A; with per-widget thresholds the last call returns 0b10. *)
Theorem C4_band_of_second_widget_not_counted :
  let st0 := power_up scenario_config (scenario_data 15 0 150 0) in
  let n := Z.to_nat NO_MANS_LAND_COUNT in
  noMansLand (ownWidget scenario_config st0 1) (sensorAt st0 1) = true /\
  scenario_returned st0 (replicate (S n) (hold_B 150)) = replicate (S n) 0 /\
  nth 1 (noMansLandCounter
           (scenario_cycles st0 (replicate (S n) (hold_B 150)))) 0 = 0 /\
  scenario_returned_per_widget st0 (replicate (S n) (hold_B 150))
  = replicate n 0 ++ [2].
Proof. vm_compute. repeat split; reflexivity. Qed.

(** C6: a sensor of the second widget above twice the finger threshold of
    its own widget is not flagged when the first widget has a higher finger
    threshold. With widget B (FT = 200) first and widget A (FT = 100) second,
    the sensor of widget A at 250 is selected and the call returns 0; with
    per-widget thresholds it returns 0b10. *)
Theorem C6_hyper_event_of_second_widget_missed :
  let st := power_up scenario_config (swapped_data 15 0 250 0) in
  diff (sensorAt st 1)
  > HYPER_EVENT_FTH_MULTIPLIER * fingerTh (ownWidget scenario_config st 1) /\
  Z.testbit ALL_SENSORS 1 = true /\
  result (scenario_check ALL_SENSORS false st) = 0 /\
  result (checkSensor_per_widget TOUCH_STATUS_BIT
            (initializeSensorBaseline scenario_config) scenario_config
            ALL_SENSORS false st) = 2.
Proof. vm_compute. repeat split; reflexivity. Qed.

(** * Further properties of [checkSensor] *)

(** ** The traversal, whatever the baseline reset does *)

Section Traversal.

Variable CY_CAPSENSE_SNS_TOUCH_STATUS_MASK : Z.
Variable Cy_CapSense_InitializeSensorBaseline :
  nat -> nat -> cy_stc_capsense_tuner_t -> cy_stc_capsense_tuner_t.

Local Abbreviation visit :=
  (fun sensorMask resetBaseline s (p : nat * nat) =>
     sensorBody CY_CAPSENSE_SNS_TOUCH_STATUS_MASK
       Cy_CapSense_InitializeSensorBaseline sensorMask resetBaseline
       (fst p) (snd p) s).

Lemma sensorBody_index (sensorMask : Z) (rb : bool) (w s : nat) (st : state) :
  sensorIndex
    (sensorBody CY_CAPSENSE_SNS_TOUCH_STATUS_MASK
       Cy_CapSense_InitializeSensorBaseline sensorMask rb w s st)
  = S (sensorIndex st).
Proof.
  destruct (sensorBody_local CY_CAPSENSE_SNS_TOUCH_STATUS_MASK
              Cy_CapSense_InitializeSensorBaseline sensorMask rb w s st)
    as (st2 & (Hi & _) & Heq & _).
  rewrite Heq. simpl. now rewrite Hi.
Qed.

Lemma sensorBody_skip (sensorMask : Z) (rb : bool) (w s : nat) (st : state) :
  selected sensorMask (sensorIndex st) = false ->
  sensorBody CY_CAPSENSE_SNS_TOUCH_STATUS_MASK
    Cy_CapSense_InitializeSensorBaseline sensorMask rb w s st
  = nextSensor st.
Proof. intros Hsel. unfold sensorBody. now rewrite Hsel. Qed.

(** A bit of the mask returned is a bit the traversal found set or the bit
    of a sensor it visited and the mask selects. *)
Lemma fold_reported (sensorMask : Z) (rb : bool) (ps : list (nat * nat))
    (st : state) (j : nat) :
  Z.testbit (result (fold_left (visit sensorMask rb) ps st)) (Z.of_nat j) = true ->
  Z.testbit (result st) (Z.of_nat j) = true \/
  ((sensorIndex st <= j < sensorIndex st + length ps)%nat /\
   selected sensorMask j = true).
Proof.
  revert st. induction ps as [|p ps IH]; intros st Hbit; simpl in *.
  - now left.
  - destruct (sensorBody_local CY_CAPSENSE_SNS_TOUCH_STATUS_MASK
                Cy_CapSense_InitializeSensorBaseline sensorMask rb
                (fst p) (snd p) st) as (st2 & Hloc & Heq & Hskip).
    rewrite Heq in Hbit. apply IH in Hbit. simpl in Hbit.
    destruct Hloc as (Hi & [b Hr] & _). rewrite Hi in Hbit.
    destruct Hbit as [Hbit|[Hrange Hsel]]; [|right; split; [lia|exact Hsel]].
    destruct (selected sensorMask (sensorIndex st)) eqn:Hsel.
    + destruct (Nat.eq_dec (sensorIndex st) j) as [<-|Hne].
      * right. split; [lia|exact Hsel].
      * left. now rewrite Hr, testbit_flag_other in Hbit.
    + left. now rewrite (Hskip eq_refl) in Hbit.
Qed.

(** Only the bit of the sensor under the cursor is read from the mask. *)
Lemma fold_mask_ext (m m' : Z) (rb : bool) (ps : list (nat * nat)) (st : state) :
  (forall k, (k < length ps)%nat ->
     selected m (sensorIndex st + k) = selected m' (sensorIndex st + k)) ->
  fold_left (visit m rb) ps st = fold_left (visit m' rb) ps st.
Proof.
  revert st. induction ps as [|p ps IH]; intros st Hsel; simpl.
  - reflexivity.
  - assert (Hhead : visit m rb st p = visit m' rb st p).
    { unfold sensorBody. pose proof (Hsel 0%nat) as H0. simpl in H0.
      rewrite Nat.add_0_r in H0. rewrite H0 by lia. reflexivity. }
    rewrite Hhead. apply IH. intros k Hk. rewrite sensorBody_index.
    replace (S (sensorIndex st) + k)%nat with (sensorIndex st + S k)%nat by lia.
    apply Hsel. simpl. lia.
Qed.

(** A traversal that selects none of the sensors it visits only moves the
    cursor. *)
Lemma fold_skip (sensorMask : Z) (rb : bool) (ps : list (nat * nat))
    (st : state) :
  (forall k, (k < length ps)%nat ->
     selected sensorMask (sensorIndex st + k) = false) ->
  fold_left (visit sensorMask rb) ps st
  = mkState (result st) (sensorIndex st + length ps) (ptrWdContext st)
      (ptrSensors st + length ps) (noMansLandCounter st) (stuckCounter st)
      (cy_capsense_tuner st) (baselineResets st).
Proof.
  revert st. induction ps as [|p ps IH]; intros st Hsel; simpl.
  - rewrite !Nat.add_0_r. now destruct st.
  - rewrite sensorBody_skip.
    + rewrite IH; simpl.
      * f_equal; lia.
      * intros k Hk.
        replace (S (sensorIndex st + k)) with (sensorIndex st + S k)%nat by lia.
        apply Hsel. simpl. lia.
    + specialize (Hsel 0%nat). rewrite Nat.add_0_r in Hsel. apply Hsel.
      simpl. lia.
Qed.

(** Without the flag the CapSense data are only read. *)
Lemma sensorBody_reads_only (sensorMask : Z) (w s : nat) (st : state) :
  cy_capsense_tuner
    (sensorBody CY_CAPSENSE_SNS_TOUCH_STATUS_MASK
       Cy_CapSense_InitializeSensorBaseline sensorMask false w s st)
  = cy_capsense_tuner st.
Proof.
  unfold sensorBody, testStuckSensor, testNoMansLand, testHyperEvent,
    resetSensorBaseline.
  repeat (match goal with
          | |- context [if ?c then _ else _] => destruct c
          end; simpl); reflexivity.
Qed.

Lemma fold_reads_only (sensorMask : Z) (ps : list (nat * nat)) (st : state) :
  cy_capsense_tuner (fold_left (visit sensorMask false) ps st)
  = cy_capsense_tuner st.
Proof.
  revert st. induction ps as [|p ps IH]; intros st; simpl.
  - reflexivity.
  - now rewrite IH, sensorBody_reads_only.
Qed.

End Traversal.

Lemma checkSensor_traversal
    (touchMask : Z)
    (reset : nat -> nat -> cy_stc_capsense_tuner_t -> cy_stc_capsense_tuner_t)
    (wdConfig : list cy_stc_capsense_widget_config_t)
    (sensorMask : Z) (resetBaseline : bool) (st : state) :
  checkSensor touchMask reset wdConfig sensorMask resetBaseline st
  = fold_left
      (fun s (p : nat * nat) =>
         sensorBody touchMask reset sensorMask resetBaseline (fst p) (snd p) s)
      (positions wdConfig) (enter st).
Proof. unfold checkSensor. now rewrite widgetLoop_positions. Qed.

(** X1: the mask returned has no bit outside the sensor mask and none at or
    above the number of configured sensors, whatever the baseline reset
    does. *)
Theorem X1_result_within_mask_and_sensors
    (touchMask : Z)
    (reset : nat -> nat -> cy_stc_capsense_tuner_t -> cy_stc_capsense_tuner_t)
    (wdConfig : list cy_stc_capsense_widget_config_t)
    (sensorMask : Z) (resetBaseline : bool) (st : state) :
  wf_state wdConfig st ->
  let st' := checkSensor touchMask reset wdConfig sensorMask resetBaseline st in
  Z.land (result st') sensorMask = result st' /\
  0 <= result st' < 2 ^ Z.of_nat (total_sensors wdConfig).
Proof.
  intros ((_ & H32) & _) st'.
  assert (Hbits : forall n, 0 <= n -> Z.testbit (result st') n = true ->
            n < Z.of_nat (total_sensors wdConfig) /\
            Z.testbit sensorMask n = true).
  { intros n Hn Hbit. unfold st' in Hbit.
    rewrite checkSensor_traversal, <- (Z2Nat.id n Hn) in Hbit.
    apply fold_reported in Hbit. simpl in Hbit.
    destruct Hbit as [Hbit|[Hrange Hsel]]; [now rewrite Z.bits_0 in Hbit|].
    fold (total_sensors wdConfig) in Hrange.
    rewrite selected_testbit, Z2Nat.id in Hsel by lia.
    split; [lia|exact Hsel]. }
  split.
  - apply Z.bits_inj'. intros n Hn. rewrite Z.land_spec.
    destruct (Z.testbit (result st') n) eqn:Hbit; [|reflexivity].
    now destruct (Hbits n Hn Hbit) as [_ ->].
  - assert (Hmod : result st' = result st' mod 2 ^ Z.of_nat (total_sensors wdConfig)).
    { apply Z.bits_inj'. intros n Hn.
      destruct (Z.lt_ge_cases n (Z.of_nat (total_sensors wdConfig))) as [Hlt|Hge].
      - now rewrite Z.mod_pow2_bits_low.
      - rewrite Z.mod_pow2_bits_high by lia.
        destruct (Z.testbit (result st') n) eqn:Hbit; [|reflexivity].
        destruct (Hbits n Hn Hbit). lia. }
    rewrite Hmod. apply Z.mod_pos_bound. apply Z.pow_pos_nonneg; lia.
Qed.

(** Both sensors of the scenario are hyper events; the mask selects
    sensor B only. *)
Lemma X1_result_within_mask_and_sensors_witness :
  let st' :=
    scenario_check 2 true (power_up scenario_config (scenario_data 250 0 500 0)) in
  Z.land (result st') 2 = result st' /\ 0 <= result st' < 2 ^ 2.
Proof.
  apply (X1_result_within_mask_and_sensors TOUCH_STATUS_BIT
           (initializeSensorBaseline scenario_config) scenario_config 2 true
           (power_up scenario_config (scenario_data 250 0 500 0))).
  apply wf_state_scenario. split; reflexivity.
Defined.

(** X2: with resetBaseline = false the call leaves the CapSense data
    structure as it is and logs no baseline reset, whatever the reset of
    the middleware would do: the routine itself only reads the data. *)
Theorem X2_without_flag_data_only_read
    (touchMask : Z)
    (reset : nat -> nat -> cy_stc_capsense_tuner_t -> cy_stc_capsense_tuner_t)
    (wdConfig : list cy_stc_capsense_widget_config_t)
    (sensorMask : Z) (st : state) :
  let st' := checkSensor touchMask reset wdConfig sensorMask false st in
  cy_capsense_tuner st' = cy_capsense_tuner st /\
  baselineResets st' = baselineResets st.
Proof.
  intros st'. unfold st'. rewrite checkSensor_traversal. split.
  - now rewrite fold_reads_only.
  - now rewrite fold_without_reset.
Qed.

(** X3: a call whose mask selects none of the configured sensors returns 0
    and changes nothing but its own locals: the counters, the CapSense data
    and the log of resets are those of the state it was entered in, even
    with resetBaseline = true. *)
Theorem X3_nothing_selected_nothing_done
    (touchMask : Z)
    (reset : nat -> nat -> cy_stc_capsense_tuner_t -> cy_stc_capsense_tuner_t)
    (wdConfig : list cy_stc_capsense_widget_config_t)
    (sensorMask : Z) (resetBaseline : bool) (st : state) :
  wf_state wdConfig st ->
  (forall i, (i < total_sensors wdConfig)%nat ->
     Z.testbit sensorMask (Z.of_nat i) = false) ->
  checkSensor touchMask reset wdConfig sensorMask resetBaseline st
  = mkState 0 (total_sensors wdConfig) 0 (total_sensors wdConfig)
      (noMansLandCounter st) (stuckCounter st)
      (cy_capsense_tuner st) (baselineResets st).
Proof.
  intros _ Hmask. rewrite checkSensor_traversal, fold_skip.
  - reflexivity.
  - intros k Hk. simpl. apply selected_clear, Hmask. exact Hk.
Qed.

(** The scenario with an empty mask and both sensors far above their
    thresholds. *)
Lemma X3_nothing_selected_nothing_done_witness :
  let st := power_up scenario_config (scenario_data 500 1 500 1) in
  scenario_check 0 true st
  = mkState 0 2 0 2 [0; 0] [0; 0] (scenario_data 500 1 500 1) [].
Proof.
  apply (X3_nothing_selected_nothing_done TOUCH_STATUS_BIT
           (initializeSensorBaseline scenario_config) scenario_config 0 true
           (power_up scenario_config (scenario_data 500 1 500 1))).
  - apply wf_state_scenario. split; reflexivity.
  - intros i _. apply Z.bits_0.
Defined.

(** X4: only the bits of the configured sensors are read from the sensor
    mask: two masks that agree on them give the same call, state for
    state. *)
Theorem X4_mask_read_below_sensor_count
    (touchMask : Z)
    (reset : nat -> nat -> cy_stc_capsense_tuner_t -> cy_stc_capsense_tuner_t)
    (wdConfig : list cy_stc_capsense_widget_config_t)
    (m m' : Z) (resetBaseline : bool) (st : state) :
  wf_state wdConfig st ->
  (forall i, (i < total_sensors wdConfig)%nat ->
     Z.testbit m (Z.of_nat i) = Z.testbit m' (Z.of_nat i)) ->
  checkSensor touchMask reset wdConfig m resetBaseline st
  = checkSensor touchMask reset wdConfig m' resetBaseline st.
Proof.
  intros ((_ & H32) & _) Hmask. rewrite !checkSensor_traversal.
  apply fold_mask_ext. intros k Hk. simpl.
  fold (total_sensors wdConfig) in Hk.
  rewrite !selected_testbit by lia. now apply Hmask.
Qed.

(** In the scenario, of two sensors, the mask 0b11 does what ALL_SENSORS
    does. *)
Lemma X4_mask_read_below_sensor_count_witness :
  let st := power_up scenario_config (scenario_data 250 0 50 1) in
  scenario_check 3 true st = scenario_check ALL_SENSORS true st.
Proof.
  apply (X4_mask_read_below_sensor_count TOUCH_STATUS_BIT
           (initializeSensorBaseline scenario_config) scenario_config
           3 ALL_SENSORS true
           (power_up scenario_config (scenario_data 250 0 50 1))).
  - apply wf_state_scenario. split; reflexivity.
  - intros i Hi. unfold total_sensors in Hi. simpl in Hi.
    destruct i as [|[|i]]; [reflexivity|reflexivity|lia].
Defined.

(** ** One call, for a baseline reset that preserves the inputs *)

Lemma hyperTrips_inputs (a b : state) (j : nat) :
  inputs (cy_capsense_tuner a) = inputs (cy_capsense_tuner b) ->
  hyperTrips a j = hyperTrips b j.
Proof. intros H. unfold hyperTrips, firstWidget, sensorAt. now apply hyperEvent_inputs. Qed.

Lemma inBand_inputs (a b : state) (j : nat) :
  inputs (cy_capsense_tuner a) = inputs (cy_capsense_tuner b) ->
  inBand a j = inBand b j.
Proof. intros H. unfold inBand, firstWidget, sensorAt. now apply noMansLand_inputs. Qed.

Lemma isTouched_inputs (mask : Z) (a b : state) (j : nat) :
  inputs (cy_capsense_tuner a) = inputs (cy_capsense_tuner b) ->
  isTouched mask a j = isTouched mask b j.
Proof. intros H. unfold isTouched, sensorAt. now apply touched_inputs. Qed.

Lemma checkSensor_wf
    (touchMask : Z)
    (reset : nat -> nat -> cy_stc_capsense_tuner_t -> cy_stc_capsense_tuner_t)
    (wdConfig : list cy_stc_capsense_widget_config_t)
    (sensorMask : Z) (resetBaseline : bool) (st : state) :
  preserves_inputs reset ->
  wf_state wdConfig st ->
  wf_state wdConfig
    (checkSensor touchMask reset wdConfig sensorMask resetBaseline st).
Proof.
  intros Hframe Hwf.
  pose proof (checkSensor_lengths touchMask reset Hframe wdConfig sensorMask
                resetBaseline st Hwf) as [Hn Hs].
  pose proof (checkSensor_inputs touchMask reset Hframe wdConfig sensorMask
                resetBaseline st Hwf) as Hi.
  destruct Hwf as (Hc & (Hw & Hsn) & Hln & Hls).
  unfold inputs in Hi. inversion Hi as [[Hi1 Hi2]].
  apply (f_equal length) in Hi2. rewrite !length_map in Hi2.
  repeat split; try apply Hc; congruence.
Qed.

Lemma selected_lor (m1 m2 : Z) (j : nat) :
  (j < 32)%nat ->
  selected (Z.lor m1 m2) j = selected m1 j || selected m2 j.
Proof. intros Hj. rewrite !selected_testbit by assumption. apply Z.lor_spec. Qed.

Lemma selected_disjoint (m1 m2 : Z) (j : nat) :
  Z.land m1 m2 = 0 -> (j < 32)%nat ->
  selected m1 j && selected m2 j = false.
Proof.
  intros Hd Hj. rewrite !selected_testbit by assumption.
  rewrite <- Z.land_spec, Hd. apply Z.bits_0.
Qed.

(** X5: checking two disjoint sets of sensors in two calls on the same scan
    is checking their union in one call: the second call returns the rest
    of the mask of the single call, and the counters end with the same
    values. *)
Theorem X5_disjoint_masks_compose
    (touchMask : Z)
    (reset : nat -> nat -> cy_stc_capsense_tuner_t -> cy_stc_capsense_tuner_t)
    (wdConfig : list cy_stc_capsense_widget_config_t)
    (m1 m2 : Z) (rb1 rb2 rb : bool) (st : state) :
  preserves_inputs reset ->
  wf_state wdConfig st ->
  Z.land m1 m2 = 0 ->
  let first := checkSensor touchMask reset wdConfig m1 rb1 st in
  let second := checkSensor touchMask reset wdConfig m2 rb2 first in
  let both := checkSensor touchMask reset wdConfig (Z.lor m1 m2) rb st in
  result both = Z.lor (result first) (result second) /\
  noMansLandCounter both = noMansLandCounter second /\
  stuckCounter both = stuckCounter second.
Proof.
  intros Hframe Hwf Hd first second both.
  assert (Hwf1 : wf_state wdConfig first) by now apply checkSensor_wf.
  assert (Hin : inputs (cy_capsense_tuner first) = inputs (cy_capsense_tuner st))
    by now apply checkSensor_inputs.
  assert (H32 : (total_sensors wdConfig <= 32)%nat)
    by (destruct Hwf as ((_ & H32) & _); exact H32).
  pose proof (checkSensor_lengths touchMask reset Hframe wdConfig m1 rb1 st Hwf)
    as [Hn1 Hs1].
  pose proof (checkSensor_lengths touchMask reset Hframe wdConfig m2 rb2 first
                Hwf1) as [Hn2 Hs2].
  pose proof (checkSensor_lengths touchMask reset Hframe wdConfig
                (Z.lor m1 m2) rb st Hwf) as [Hn12 Hs12].
  fold first in Hn1, Hs1, Hn2, Hs2. fold second in Hn2, Hs2.
  fold both in Hn12, Hs12.
  assert (Hcn : forall j, nth j (noMansLandCounter both) 0
                          = nth j (noMansLandCounter second) 0).
  { intros j. unfold both, second.
    rewrite !checkSensor_noMansLandCounter by assumption. fold first.
    unfold first at 2. rewrite checkSensor_noMansLandCounter by assumption.
    destruct (Nat.ltb_spec j (total_sensors wdConfig)) as [Hj|Hj];
      [|reflexivity].
    unfold noMansLandAfter. rewrite (inBand_inputs first st j Hin).
    unfold first. rewrite checkSensor_noMansLandCounter by assumption.
    replace (j <? total_sensors wdConfig)%nat with true
      by (symmetry; apply Nat.ltb_lt; exact Hj).
    unfold noMansLandAfter.
    rewrite selected_lor by lia.
    pose proof (selected_disjoint m1 m2 j Hd ltac:(lia)) as Hdis.
    destruct (selected m1 j), (selected m2 j), (inBand st j);
      simpl in *; (reflexivity || discriminate). }
  assert (Hcs : forall j, nth j (stuckCounter both) 0
                          = nth j (stuckCounter second) 0).
  { intros j. unfold both, second.
    rewrite !checkSensor_stuckCounter by assumption. fold first.
    unfold first at 2. rewrite checkSensor_stuckCounter by assumption.
    destruct (Nat.ltb_spec j (total_sensors wdConfig)) as [Hj|Hj];
      [|reflexivity].
    unfold stuckAfter. rewrite (isTouched_inputs touchMask first st j Hin).
    unfold first. rewrite checkSensor_stuckCounter by assumption.
    replace (j <? total_sensors wdConfig)%nat with true
      by (symmetry; apply Nat.ltb_lt; exact Hj).
    unfold stuckAfter.
    rewrite selected_lor by lia.
    pose proof (selected_disjoint m1 m2 j Hd ltac:(lia)) as Hdis.
    destruct (selected m1 j), (selected m2 j), (isTouched touchMask st j);
      simpl in *; (reflexivity || discriminate). }
  repeat split.
  - apply Z.bits_inj'. intros n Hn.
    rewrite Z.lor_spec, <- (Z2Nat.id n Hn). set (j := Z.to_nat n).
    unfold both, second. rewrite !checkSensor_result by assumption.
    fold first. unfold first at 1. rewrite checkSensor_result by assumption.
    destruct (Nat.ltb_spec j (total_sensors wdConfig)) as [Hj|Hj];
      [|reflexivity].
    unfold flagged, noMansLandTrips, stuckTrips.
    rewrite (hyperTrips_inputs first st j Hin), (inBand_inputs first st j Hin),
      (isTouched_inputs touchMask first st j Hin).
    unfold first. rewrite checkSensor_noMansLandCounter,
      checkSensor_stuckCounter by assumption.
    replace (j <? total_sensors wdConfig)%nat with true
      by (symmetry; apply Nat.ltb_lt; exact Hj).
    unfold noMansLandAfter, stuckAfter. rewrite selected_lor by lia.
    pose proof (selected_disjoint m1 m2 j Hd ltac:(lia)) as Hdis.
    destruct (selected m1 j), (selected m2 j); simpl in *;
      try discriminate; rewrite ?orb_false_r; reflexivity.
  - apply (nth_ext _ _ 0 0); [congruence|]. intros j _. apply Hcn.
  - apply (nth_ext _ _ 0 0); [congruence|]. intros j _. apply Hcs.
Qed.

(** Sensor A, a hyper event, and sensor B, touched, checked one after the
    other and together. *)
Lemma X5_disjoint_masks_compose_witness :
  let st := power_up scenario_config (scenario_data 250 0 50 1) in
  let first := scenario_check 1 true st in
  let second := scenario_check 2 false first in
  let both := scenario_check 3 true st in
  result both = Z.lor (result first) (result second) /\
  noMansLandCounter both = noMansLandCounter second /\
  stuckCounter both = stuckCounter second.
Proof.
  apply (X5_disjoint_masks_compose TOUCH_STATUS_BIT
           (initializeSensorBaseline scenario_config) scenario_config
           1 2 true false true
           (power_up scenario_config (scenario_data 250 0 50 1))).
  - apply initializeSensorBaseline_frame.
  - apply wf_state_scenario. split; reflexivity.
  - reflexivity.
Defined.

(** X6: what a call does to a sensor depends on that sensor alone: its bit
    of the sensor mask, its difference count and status, its two counters,
    and the thresholds of the first widget. Two calls that agree on these
    give the sensor the same result bit and the same counters, whatever
    the other sensors, the other widgets, the other bits of the mask and
    the flag are. *)
Theorem X6_sensor_outcome_is_local
    (touchMask : Z)
    (reset : nat -> nat -> cy_stc_capsense_tuner_t -> cy_stc_capsense_tuner_t)
    (wdConfig : list cy_stc_capsense_widget_config_t)
    (m m' : Z) (rb rb' : bool) (st st' : state) (i : nat) :
  preserves_inputs reset ->
  wf_state wdConfig st -> wf_state wdConfig st' ->
  (i < total_sensors wdConfig)%nat ->
  Z.testbit m (Z.of_nat i) = Z.testbit m' (Z.of_nat i) ->
  firstWidget st = firstWidget st' ->
  diff (sensorAt st i) = diff (sensorAt st' i) ->
  status (sensorAt st i) = status (sensorAt st' i) ->
  nth i (noMansLandCounter st) 0 = nth i (noMansLandCounter st') 0 ->
  nth i (stuckCounter st) 0 = nth i (stuckCounter st') 0 ->
  let out := checkSensor touchMask reset wdConfig m rb st in
  let out' := checkSensor touchMask reset wdConfig m' rb' st' in
  Z.testbit (result out) (Z.of_nat i) = Z.testbit (result out') (Z.of_nat i) /\
  nth i (noMansLandCounter out) 0 = nth i (noMansLandCounter out') 0 /\
  nth i (stuckCounter out) 0 = nth i (stuckCounter out') 0.
Proof.
  intros Hframe Hwf Hwf' Hi Hbit Hw Hd Hs Hn Hk out out'. unfold out, out'.
  assert (H32 : (i < 32)%nat) by (destruct Hwf as ((_ & H32) & _); lia).
  rewrite !checkSensor_result, !checkSensor_noMansLandCounter,
    !checkSensor_stuckCounter by assumption.
  unfold flagged, noMansLandAfter, stuckAfter, noMansLandTrips, stuckTrips,
    hyperTrips, inBand, isTouched, hyperEvent, noMansLand, touched.
  rewrite !selected_testbit, Hbit, Hw, Hd, Hs, Hn, Hk by assumption.
  repeat split.
Qed.

(** Sensor A of the scenario, in the band and touched, with another
    sensor B, another mask and another flag. *)
Lemma X6_sensor_outcome_is_local_witness :
  let out :=
    scenario_check 1 true (power_up scenario_config (scenario_data 50 1 15 0)) in
  let out' :=
    scenario_check 3 false (power_up scenario_config (scenario_data 50 1 500 1)) in
  Z.testbit (result out) 0 = Z.testbit (result out') 0 /\
  nth 0 (noMansLandCounter out) 0 = nth 0 (noMansLandCounter out') 0 /\
  nth 0 (stuckCounter out) 0 = nth 0 (stuckCounter out') 0.
Proof.
  apply (X6_sensor_outcome_is_local TOUCH_STATUS_BIT
           (initializeSensorBaseline scenario_config) scenario_config
           1 3 true false
           (power_up scenario_config (scenario_data 50 1 15 0))
           (power_up scenario_config (scenario_data 50 1 500 1)) 0).
  - apply initializeSensorBaseline_frame.
  - apply wf_state_scenario. split; reflexivity.
  - apply wf_state_scenario. split; reflexivity.
  - unfold total_sensors. simpl. lia.
  - reflexivity.
  - reflexivity.
  - reflexivity.
  - reflexivity.
  - reflexivity.
  - reflexivity.
Defined.

(** X7: the call returns 0 exactly when no selected sensor trips a rule:
    none is above twice the finger threshold read, none is in the band with
    its no-man's-land counter at the limit, none is touched with its stuck
    counter at the limit. The finger threshold and the band are those the
    routine reads through ptrWdContext, the first widget's, for every
    sensor. *)
Theorem X7_zero_iff_nothing_trips
    (touchMask : Z)
    (reset : nat -> nat -> cy_stc_capsense_tuner_t -> cy_stc_capsense_tuner_t)
    (wdConfig : list cy_stc_capsense_widget_config_t)
    (sensorMask : Z) (resetBaseline : bool) (st : state) :
  preserves_inputs reset ->
  wf_state wdConfig st ->
  result (checkSensor touchMask reset wdConfig sensorMask resetBaseline st) = 0
  <->
  (forall i, (i < total_sensors wdConfig)%nat ->
     Z.testbit sensorMask (Z.of_nat i) = true ->
     hyperTrips st i = false /\ noMansLandTrips st i = false /\
     stuckTrips touchMask st i = false).
Proof.
  intros Hframe Hwf.
  assert (H32 : (total_sensors wdConfig <= 32)%nat)
    by (destruct Hwf as ((_ & H32) & _); exact H32).
  split.
  - intros Hzero i Hi Hbit.
    pose proof (checkSensor_result touchMask reset Hframe wdConfig sensorMask
                  resetBaseline st Hwf i) as Hr.
    rewrite Hzero, Z.bits_0 in Hr.
    replace (i <? total_sensors wdConfig)%nat with true in Hr
      by (symmetry; apply Nat.ltb_lt; exact Hi).
    unfold flagged in Hr. rewrite selected_testbit, Hbit in Hr by lia.
    simpl in Hr. symmetry in Hr.
    apply orb_false_iff in Hr. destruct Hr as [Hr Hst].
    apply orb_false_iff in Hr. destruct Hr as [Hh Hn].
    repeat split; assumption.
  - intros Hnone. apply Z.bits_inj'. intros n Hn.
    rewrite Z.bits_0, <- (Z2Nat.id n Hn), checkSensor_result by assumption.
    destruct (Nat.ltb_spec (Z.to_nat n) (total_sensors wdConfig)) as [Hj|Hj];
      [|reflexivity].
    unfold flagged. rewrite selected_testbit by lia.
    destruct (Z.testbit sensorMask (Z.of_nat (Z.to_nat n))) eqn:Hbit;
      [|reflexivity].
    destruct (Hnone _ Hj Hbit) as (-> & -> & ->). reflexivity.
Qed.

(** The scenario with both sensors idle. *)
Lemma X7_zero_iff_nothing_trips_witness :
  let st := power_up scenario_config (scenario_data 15 0 15 0) in
  result (scenario_check ALL_SENSORS true st) = 0
  <->
  (forall i, (i < total_sensors scenario_config)%nat ->
     Z.testbit ALL_SENSORS (Z.of_nat i) = true ->
     hyperTrips st i = false /\ noMansLandTrips st i = false /\
     stuckTrips TOUCH_STATUS_BIT st i = false).
Proof.
  apply (X7_zero_iff_nothing_trips TOUCH_STATUS_BIT
           (initializeSensorBaseline scenario_config) scenario_config
           ALL_SENSORS true
           (power_up scenario_config (scenario_data 15 0 15 0))).
  - apply initializeSensorBaseline_frame.
  - apply wf_state_scenario. split; reflexivity.
Defined.

Lemma selected_ALL_SENSORS (i : nat) :
  (i < 32)%nat -> selected ALL_SENSORS i = true.
Proof.
  intros Hi. rewrite selected_testbit by assumption.
  change ALL_SENSORS with (Z.ones 32). apply Z.ones_spec_low. lia.
Qed.

(** X8: with ALL_SENSORS every configured sensor is examined: its result
    bit is set exactly when it trips a rule, its no-man's-land counter
    counts the call when it is in the band, and its stuck counter when it
    is touched. The rules and the band are those the routine evaluates,
    with the thresholds read through ptrWdContext, the first widget's, for
    every sensor. *)
Theorem X8_ALL_SENSORS_examines_every_sensor
    (touchMask : Z)
    (reset : nat -> nat -> cy_stc_capsense_tuner_t -> cy_stc_capsense_tuner_t)
    (wdConfig : list cy_stc_capsense_widget_config_t)
    (resetBaseline : bool) (st : state) (i : nat) :
  preserves_inputs reset ->
  wf_state wdConfig st ->
  (i < total_sensors wdConfig)%nat ->
  let st' := checkSensor touchMask reset wdConfig ALL_SENSORS resetBaseline st in
  Z.testbit (result st') (Z.of_nat i)
  = hyperTrips st i || noMansLandTrips st i || stuckTrips touchMask st i /\
  nth i (noMansLandCounter st') 0
  = (if inBand st i
     then bump NO_MANS_LAND_COUNT (nth i (noMansLandCounter st) 0)
     else nth i (noMansLandCounter st) 0) /\
  nth i (stuckCounter st') 0
  = (if isTouched touchMask st i
     then bump STUCK_SENSOR_COUNT (nth i (stuckCounter st) 0)
     else nth i (stuckCounter st) 0).
Proof.
  intros Hframe Hwf Hi st'. unfold st'.
  assert (H32 : (i < 32)%nat) by (destruct Hwf as ((_ & H32) & _); lia).
  rewrite checkSensor_result, checkSensor_noMansLandCounter,
    checkSensor_stuckCounter by assumption.
  replace (i <? total_sensors wdConfig)%nat with true
    by (symmetry; apply Nat.ltb_lt; exact Hi).
  unfold flagged, noMansLandAfter, stuckAfter.
  rewrite selected_ALL_SENSORS by assumption. repeat split.
Qed.

(** Sensor B of the scenario, the last of the configuration. *)
Lemma X8_ALL_SENSORS_examines_every_sensor_witness :
  let st := power_up scenario_config (scenario_data 15 0 50 1) in
  let st' := scenario_check ALL_SENSORS false st in
  Z.testbit (result st') 1
  = hyperTrips st 1 || noMansLandTrips st 1 || stuckTrips TOUCH_STATUS_BIT st 1 /\
  nth 1 (noMansLandCounter st') 0
  = (if inBand st 1
     then bump NO_MANS_LAND_COUNT (nth 1 (noMansLandCounter st) 0)
     else nth 1 (noMansLandCounter st) 0) /\
  nth 1 (stuckCounter st') 0
  = (if isTouched TOUCH_STATUS_BIT st 1
     then bump STUCK_SENSOR_COUNT (nth 1 (stuckCounter st) 0)
     else nth 1 (stuckCounter st) 0).
Proof.
  apply (X8_ALL_SENSORS_examines_every_sensor TOUCH_STATUS_BIT
           (initializeSensorBaseline scenario_config) scenario_config false
           (power_up scenario_config (scenario_data 15 0 50 1)) 1).
  - apply initializeSensorBaseline_frame.
  - apply wf_state_scenario. split; reflexivity.
  - unfold total_sensors. simpl. lia.
Defined.

(** ** Scan after scan: the counters as cyclic counters *)



Section Cyclic.

Variable CY_CAPSENSE_SNS_TOUCH_STATUS_MASK : Z.
Variable Cy_CapSense_InitializeSensorBaseline :
  nat -> nat -> cy_stc_capsense_tuner_t -> cy_stc_capsense_tuner_t.
Hypothesis reset_frame : preserves_inputs Cy_CapSense_InitializeSensorBaseline.
Variable wdConfig : list cy_stc_capsense_widget_config_t.

Local Abbreviation cycle' :=
  (cycle CY_CAPSENSE_SNS_TOUCH_STATUS_MASK
     Cy_CapSense_InitializeSensorBaseline wdConfig).
Local Abbreviation cycles' :=
  (cycles CY_CAPSENSE_SNS_TOUCH_STATUS_MASK
     Cy_CapSense_InitializeSensorBaseline wdConfig).



End Cyclic.





(** ** Scan after scan: the counters never wrap *)

Lemma checkSensor_counters_in_range
    (touchMask : Z)
    (reset : nat -> nat -> cy_stc_capsense_tuner_t -> cy_stc_capsense_tuner_t)
    (wdConfig : list cy_stc_capsense_widget_config_t)
    (sensorMask : Z) (resetBaseline : bool) (st : state) :
  preserves_inputs reset ->
  wf_state wdConfig st ->
  Forall (fun c => 0 <= c <= NO_MANS_LAND_COUNT) (noMansLandCounter st) ->
  Forall (fun c => 0 <= c <= STUCK_SENSOR_COUNT) (stuckCounter st) ->
  let st' := checkSensor touchMask reset wdConfig sensorMask resetBaseline st in
  Forall (fun c => 0 <= c <= NO_MANS_LAND_COUNT) (noMansLandCounter st') /\
  Forall (fun c => 0 <= c <= STUCK_SENSOR_COUNT) (stuckCounter st').
Proof.
  intros Hframe Hwf Hn Hs st'. unfold st'.
  pose proof (checkSensor_lengths touchMask reset Hframe wdConfig sensorMask
                resetBaseline st Hwf) as [Hln Hls].
  rewrite List.Forall_nth in Hn, Hs.
  split; apply List.Forall_nth; intros j d Hj; rewrite (nth_indep _ d 0 Hj).
  - rewrite checkSensor_noMansLandCounter by assumption.
    rewrite Hln in Hj. specialize (Hn j 0 Hj).
    pose proof (bump_le NO_MANS_LAND_COUNT (nth j (noMansLandCounter st) 0)) as Hb.
    unfold noMansLandAfter. rewrite NO_MANS_LAND_COUNT_eq in *.
    destruct (j <? total_sensors wdConfig)%nat;
      [destruct (selected sensorMask j && inBand st j)|]; lia.
  - rewrite checkSensor_stuckCounter by assumption.
    rewrite Hls in Hj. specialize (Hs j 0 Hj).
    pose proof (bump_le STUCK_SENSOR_COUNT (nth j (stuckCounter st) 0)) as Hb.
    unfold stuckAfter. rewrite STUCK_SENSOR_COUNT_eq in *.
    destruct (j <? total_sensors wdConfig)%nat;
      [destruct (selected sensorMask j && isTouched touchMask st j)|]; lia.
Qed.

(** X11: from power-up, after any series of scans with any masks and flags,
    every no-man's-land counter lies between 0 and NO_MANS_LAND_COUNT and
    every stuck counter between 0 and STUCK_SENSOR_COUNT: no increment of a
    counter ever wraps around. *)
Theorem X11_counters_in_range_from_power_up
    (touchMask : Z)
    (reset : nat -> nat -> cy_stc_capsense_tuner_t -> cy_stc_capsense_tuner_t)
    (wdConfig : list cy_stc_capsense_widget_config_t)
    (t : cy_stc_capsense_tuner_t) (cs : list scan) :
  preserves_inputs reset ->
  wf_config wdConfig ->
  wf_tuner wdConfig t ->
  Forall (fun c => wf_tuner wdConfig (scanData c)) cs ->
  let st := cycles touchMask reset wdConfig (power_up wdConfig t) cs in
  Forall (fun c => 0 <= c <= NO_MANS_LAND_COUNT) (noMansLandCounter st) /\
  Forall (fun c => 0 <= c <= STUCK_SENSOR_COUNT) (stuckCounter st).
Proof.
  intros Hframe Hc Ht Hcs.
  assert (Hgen : forall st0, wf_state wdConfig st0 ->
            Forall (fun c => 0 <= c <= NO_MANS_LAND_COUNT) (noMansLandCounter st0) ->
            Forall (fun c => 0 <= c <= STUCK_SENSOR_COUNT) (stuckCounter st0) ->
            let st := cycles touchMask reset wdConfig st0 cs in
            Forall (fun c => 0 <= c <= NO_MANS_LAND_COUNT) (noMansLandCounter st) /\
            Forall (fun c => 0 <= c <= STUCK_SENSOR_COUNT) (stuckCounter st)).
  { induction Hcs as [|c cs Hwc _ IH]; intros st0 Hwf Hn Hs; simpl.
    - split; assumption.
    - assert (Hwl : wf_state wdConfig (load (scanData c) st0))
        by now apply load_wf.
      destruct (checkSensor_counters_in_range touchMask reset wdConfig
                  (scanMask c) (scanReset c) (load (scanData c) st0)
                  Hframe Hwl Hn Hs) as [Hn' Hs'].
      apply IH; try assumption. now apply cycle_wf. }
  apply Hgen.
  - repeat split; simpl; try apply Hc; try apply Ht; apply length_replicate.
  - simpl. apply Forall_replicate. rewrite NO_MANS_LAND_COUNT_eq. lia.
  - simpl. apply Forall_replicate. rewrite STUCK_SENSOR_COUNT_eq. lia.
Qed.

(** The scenario from power-up, with sensor A touched for 700 scans. *)
Lemma X11_counters_in_range_from_power_up_witness :
  let st :=
    scenario_cycles (power_up scenario_config (scenario_data 15 0 15 0))
      (replicate 700 touch_scan) in
  Forall (fun c => 0 <= c <= NO_MANS_LAND_COUNT) (noMansLandCounter st) /\
  Forall (fun c => 0 <= c <= STUCK_SENSOR_COUNT) (stuckCounter st).
Proof.
  apply (X11_counters_in_range_from_power_up TOUCH_STATUS_BIT
           (initializeSensorBaseline scenario_config) scenario_config
           (scenario_data 15 0 15 0) (replicate 700 touch_scan)).
  - apply initializeSensorBaseline_frame.
  - unfold wf_config, total_sensors. simpl. lia.
  - split; reflexivity.
  - apply Forall_replicate. split; reflexivity.
Defined.

(** ** The index of a sensor *)

Lemma positions_from_lookup (wdConfig : list cy_stc_capsense_widget_config_t)
    (a w s : nat) (wd : cy_stc_capsense_widget_config_t) :
  wdConfig !! w = Some wd -> (s < numSns wd)%nat ->
  positions_from a wdConfig
    !! (length (positions_from a (take w wdConfig)) + s)%nat
  = Some ((a + w)%nat, s).
Proof.
  revert a w. induction wdConfig as [|wd0 rest IH]; intros a w Hw Hs.
  - discriminate.
  - destruct w as [|w]; simpl in *.
    + inversion Hw; subst. rewrite lookup_app_l
        by (rewrite length_map, length_seq; exact Hs).
      change (map (pair a) (seq 0 (numSns wd)))
        with (pair a <$> seq 0 (numSns wd)).
      rewrite list_lookup_fmap, lookup_seq_lt by exact Hs.
      simpl. now rewrite Nat.add_0_r.
    + rewrite length_app, length_map, length_seq.
      rewrite lookup_app_r by (rewrite length_map, length_seq; lia).
      rewrite length_map, length_seq.
      replace (numSns wd0 + length (positions_from (S a) (take w rest)) + s
               - numSns wd0)%nat
        with (length (positions_from (S a) (take w rest)) + s)%nat by lia.
      rewrite (IH (S a) w Hw Hs). f_equal. f_equal. lia.
Qed.

(** X12: the bit of sensor snsNum of widget widgetID, in the sensor mask
    and in the mask returned, is the number of sensors of the widgets before
    it plus snsNum. With resetBaseline = true, selecting that bit makes the
    call reset the baseline of (widgetID, snsNum), once for each rule the
    sensor trips, and report the sensor in that bit. The calls are made on
    the CapSense data: the data the call leaves are the data it found with
    the calls of the log made on them in order, and a mask with that bit
    alone makes no other call than those for (widgetID, snsNum). *)
Theorem X12_bit_of_a_sensor
    (touchMask : Z)
    (reset : nat -> nat -> cy_stc_capsense_tuner_t -> cy_stc_capsense_tuner_t)
    (wdConfig : list cy_stc_capsense_widget_config_t)
    (sensorMask : Z) (st : state) (widgetID snsNum : nat)
    (wd : cy_stc_capsense_widget_config_t) :
  preserves_inputs reset ->
  wf_state wdConfig st ->
  wdConfig !! widgetID = Some wd ->
  (snsNum < numSns wd)%nat ->
  let i := (total_sensors (take widgetID wdConfig) + snsNum)%nat in
  Z.testbit sensorMask (Z.of_nat i) = true ->
  let st' := checkSensor touchMask reset wdConfig sensorMask true st in
  let calls := expectedResets touchMask sensorMask true st (positions wdConfig) in
  (i < total_sensors wdConfig)%nat /\
  baselineResets st' = baselineResets st ++ calls /\
  cy_capsense_tuner st' = applyResets reset calls (cy_capsense_tuner st) /\
  resetsOf (widgetID, snsNum) calls = tripCount touchMask st i /\
  (sensorMask = sensorBit i ->
   calls = replicate (tripCount touchMask st i) (widgetID, snsNum)) /\
  resetsOf (widgetID, snsNum) (baselineResets st')
  = (resetsOf (widgetID, snsNum) (baselineResets st)
     + tripCount touchMask st i)%nat /\
  Z.testbit (result st') (Z.of_nat i) = (0 <? tripCount touchMask st i)%nat.
Proof.
  intros Hframe Hwf Hw Hs i Hbit st' calls.
  assert (Hpos : positions wdConfig !! i = Some (widgetID, snsNum))
    by (unfold i, total_sensors, positions;
        apply (positions_from_lookup wdConfig 0 widgetID snsNum wd Hw Hs)).
  pose proof (position_index _ _ _ Hpos) as Hi.
  assert (H32 : (total_sensors wdConfig <= 32)%nat)
    by (destruct Hwf as ((_ & H32) & _); exact H32).
  assert (Hsel : selected sensorMask i = true)
    by (rewrite selected_testbit; [exact Hbit|lia]).
  destruct (checkSensor_calls touchMask reset wdConfig sensorMask true st
              Hframe Hwf) as [Hlog Hdata].
  fold st' calls in Hlog, Hdata.
  assert (Hcount : resetsOf (widgetID, snsNum) calls = tripCount touchMask st i).
  { unfold calls, expectedResets.
    rewrite (resetsOf_present _ _ _ i) by
      (assumption || apply positions_from_NoDup).
    unfold resetCalls. rewrite Hsel. reflexivity. }
  split; [exact Hi|]. split; [exact Hlog|]. split; [exact Hdata|].
  split; [exact Hcount|]. split; [|split].
  - intros Hmask. unfold calls. rewrite Hmask.
    apply expectedResets_single; [lia|exact Hpos].
  - rewrite Hlog, resetsOf_app, Hcount. reflexivity.
  - unfold st'. rewrite checkSensor_result by assumption.
    replace (i <? total_sensors wdConfig)%nat with true
      by (symmetry; apply Nat.ltb_lt; exact Hi).
    unfold flagged, tripCount. rewrite Hsel.
    destruct (hyperTrips st i), (noMansLandTrips st i),
      (stuckTrips touchMask st i); reflexivity.
Qed.

(** Three widgets of two, no and three sensors: the second sensor of the
    third widget has bit 3; here it is a hyper event, the one call is for
    (2, 1), and of the five sensors it is the fourth whose baseline, 1000
    before the call, is its raw count of 1250 after it. *)
Lemma X12_bit_of_a_sensor_witness :
  let cfg := [mkWdConfig 2; mkWdConfig 0; mkWdConfig 3] in
  let wds := [mkWdContext 100 20 10; mkWdContext 100 20 10;
              mkWdContext 100 20 10] in
  let t := mkTuner wds
             [mkSnsContext 1000 1000 0 0; mkSnsContext 1000 1000 0 0;
              mkSnsContext 1000 1000 0 0; mkSnsContext 1250 1000 250 0;
              mkSnsContext 1000 1000 0 0] in
  let st' :=
    checkSensor TOUCH_STATUS_BIT (initializeSensorBaseline cfg) cfg 8 true
      (power_up cfg t) in
  (3 < 5)%nat /\
  baselineResets st' = [(2%nat, 1%nat)] /\
  cy_capsense_tuner st'
  = mkTuner wds
      [mkSnsContext 1000 1000 0 0; mkSnsContext 1000 1000 0 0;
       mkSnsContext 1000 1000 0 0; mkSnsContext 1250 1250 250 0;
       mkSnsContext 1000 1000 0 0] /\
  resetsOf (2%nat, 1%nat) [(2%nat, 1%nat)] = 1%nat /\
  (8 = sensorBit 3 -> [(2%nat, 1%nat)] = replicate 1 (2%nat, 1%nat)) /\
  resetsOf (2%nat, 1%nat) (baselineResets st') = 1%nat /\
  Z.testbit (result st') 3 = true.
Proof.
  intros cfg wds t.
  apply (X12_bit_of_a_sensor TOUCH_STATUS_BIT (initializeSensorBaseline cfg)
           cfg 8 (power_up cfg t) 2 1 (mkWdConfig 3)).
  - apply initializeSensorBaseline_frame.
  - unfold wf_state, wf_config, wf_tuner, total_sensors. simpl.
    repeat split; lia.
  - reflexivity.
  - simpl. lia.
  - reflexivity.
Defined.
